(** * data_generation.py: a bouncing square rendered as 16x16 frames

    A shallow embedding of [src/data_generation.py] and the properties its
    specification states about it.

    Numbers.  Python's [float] is IEEE 754 binary64, which is Rocq's
    primitive [float]; arithmetic on it is Python's arithmetic, bit for bit.
    Python's [int] is [Z].  The numeric arguments of the functions are taken
    as floats (an [int] argument is coerced the first time it meets a float).

    Libraries.  The program calls three libraries that are not part of the
    repository:
    - the imaging library (PIL): [Image.new] and [ImageDraw.rectangle] are
      modelled in [Module PIL], pixel by pixel;
    - the rigid-body engine (pymunk): the scene objects the program builds
      are records in [Module pymunk], with the engine's assertion on a
      shape's elasticity; the solver behind [Space.step] is a parameter of
      the development, never a definition;
    - numpy: [np.cos] and [np.sin] are parameters; [np.random.uniform] is
      its own two lines over the generator's next unit variate, which is a
      parameter. *)

From Stdlib Require Import ZArith List Bool String Floats Lia.
From Stdlib Require Import Uint63.
Import ListNotations.

Local Open Scope Z_scope.

(** ** Python values *)

(** [float(z)] for the small integer constants of the program. *)
Definition float_of_int (z : Z) : float :=
  if z <? 0 then PrimFloat.opp (PrimFloat.of_uint63 (Uint63.of_Z (- z)))
  else PrimFloat.of_uint63 (Uint63.of_Z z).

(** The ways a call can fail to return.  [ValueError] and [OverflowError]
    are Python exceptions.  [Aborted] is the engine's hard assertion: the
    message is printed and the process ends; the program catches nothing,
    so an abort travels up the calls as an exception does. *)
Inductive exception : Type :=
| ValueError (msg : string)
| OverflowError (msg : string)
| Aborted (msg : string).

(** A computation that returns or raises. *)
Inductive result (A : Type) : Type :=
| Ok (a : A)
| Raise (e : exception).
Arguments Ok {A} a.
Arguments Raise {A} e.

Definition bind {A B : Type} (m : result A) (k : A -> result B) : result B :=
  match m with
  | Ok a => k a
  | Raise e => Raise e
  end.

Notation "x <- m ;; k" := (bind m (fun x => k))
  (at level 61, m at next level, right associativity).

Notation "' pat <- m ;; k" := (bind m (fun x => match x with pat => k end))
  (at level 61, pat pattern, m at next level, right associativity).

(** A [for] loop over [l] whose body can fail, threading [a]. *)
Fixpoint fold_left_result {A B : Type} (f : A -> B -> result A) (l : list B) (a : A)
  : result A :=
  match l with
  | [] => Ok a
  | b :: l' => a' <- f a b ;; fold_left_result f l' a'
  end.

(** A computation over a state [S] that returns or raises; the state it
    leaves is kept either way. *)
Definition bind_state {S A B : Type} (m : S -> result A * S)
    (k : A -> S -> result B * S) : S -> result B * S :=
  fun st =>
    match m st with
    | (Ok a, st') => k a st'
    | (Raise e, st') => (Raise e, st')
    end.

Notation "x <~ m ;; k" := (bind_state m (fun x => k))
  (at level 61, m at next level, right associativity).

(** [f] applied to every element together with its index, counted from [i]. *)
Fixpoint mapi_from {A B : Type} (f : Z -> A -> B) (i : Z) (l : list A) : list B :=
  match l with
  | [] => []
  | a :: l' => f i a :: mapi_from f (i + 1) l'
  end.

(** ** The imaging library *)

Module PIL.

(** A pixel of a mode "1" image: stored as 0 (black) or 255 (white). *)
Inductive pixel : Type := Black | White.

(** An image: its mode, its size (width, height) and its rows of pixels,
    top row first. *)
Record Image : Type := mkImage {
  mode : string;
  size : Z * Z;
  data : list (list pixel)
}.

(** [Image.new(mode, size, color)]. *)
Definition new (m : string) (sz : Z * Z) (color : pixel) : Image :=
  {| mode := m;
     size := sz;
     data := repeat (repeat color (Z.to_nat (fst sz))) (Z.to_nat (snd sz)) |}.

(** [image.getpixel((x, y))]; [None] outside the image. *)
Definition getpixel (im : Image) (xy : Z * Z) : option pixel :=
  let '(x, y) := xy in
  if (x <? 0) || (y <? 0) then None
  else match nth_error (data im) (Z.to_nat y) with
       | Some row => nth_error row (Z.to_nat x)
       | None => None
       end.

Definition INT_MIN : Z := - 2 ^ 31.
Definition INT_MAX : Z := 2 ^ 31 - 1.

(** The C cast [(int)d] the drawing core applies to each coordinate:
    truncation toward zero.  Out of the range of [int], and for infinities
    and NaN, the cast is the "integer indefinite" value [INT_MIN] that the
    conversion instruction gives. *)
Definition c_int (d : float) : Z :=
  match Prim2SF d with
  | S754_zero _ => 0
  | S754_finite s m e =>
      let a := Z.shiftl (Z.pos m) e in
      let z := if s then - a else a in
      if (INT_MIN <=? z) && (z <=? INT_MAX) then z else INT_MIN
  | S754_infinity _ | S754_nan => INT_MIN
  end.

(** One row of a filled rectangle: the pixels of columns [x0..x1] that the
    row has are set to [ink] (the clipping of the horizontal-line
    routine). *)
Definition hline (row : list pixel) (x0 x1 : Z) (ink : pixel) : list pixel :=
  mapi_from (fun x p => if (x0 <=? x) && (x <=? x1) then ink else p) 0 row.

(** The filled rectangle of the drawing core, on integer corners: the two
    ordinates are put in order, then every row between them that the
    image has gets its horizontal line. *)
Definition ImagingDrawRectangle (im : Image) (x0 y0 x1 y1 : Z) (ink : pixel)
  : Image :=
  let ya := Z.min y0 y1 in
  let yb := Z.max y0 y1 in
  {| mode := mode im;
     size := size im;
     data := mapi_from
               (fun y row => if (ya <=? y) && (y <=? yb)
                             then hline row x0 x1 ink else row)
               0 (data im) |}.

(** [ImageDraw.Draw(image).rectangle([x0, y0, x1, y1], fill=ink)]: the
    corners arrive as doubles; a second corner before the first one is a
    [ValueError]; otherwise each coordinate is cast to [int] and the
    rectangle is filled.  The draw object writes into [image]; the
    updated image is the result here. *)
Definition rectangle (im : Image) (xy : float * float * float * float)
    (fill : pixel) : result Image :=
  let '(x0, y0, x1, y1) := xy in
  if PrimFloat.ltb x1 x0
  then Raise (ValueError "x1 must be greater than or equal to x0")
  else if PrimFloat.ltb y1 y0
  then Raise (ValueError "y1 must be greater than or equal to y0")
  else Ok (ImagingDrawRectangle im (c_int x0) (c_int y0) (c_int x1) (c_int y1) fill).

End PIL.

(** ** The constants of the program *)

Definition IMAGE_HEIGHT : Z := 16.
Definition IMAGE_WIDTH : Z := 16.
Definition SHAPE_SIDE_LENGTH : Z := 0.
Definition FPS : Z := 60.

(** ** [draw_frame] *)

Definition draw_frame (position : float * float) : result PIL.Image :=
  let image := PIL.new "1" (IMAGE_WIDTH, IMAGE_HEIGHT) PIL.White in
  let '(x, y) := position in
  PIL.rectangle image
    (x, y,
     PrimFloat.add x (float_of_int SHAPE_SIDE_LENGTH),
     PrimFloat.add y (float_of_int SHAPE_SIDE_LENGTH))
    PIL.Black.

(** ** The rigid-body engine: the scene objects *)

Module pymunk.

Definition Vec2d : Type := (float * float)%type.

(** A body: [pymunk.Body(mass, moment)] is created at the origin and at
    rest; the program then sets [position] and [velocity].  (Angle and
    angular velocity stay at their default 0 throughout.)  The two setters
    store what they are given.  A debug build of the engine also checks at
    each of them that the body's coordinates are finite; a release build
    has no such check, and the model has none. *)
Record Body : Type := mkBody {
  mass : float;
  moment : float;
  position : Vec2d;
  velocity : Vec2d
}.

Definition Body_new (m i : float) : Body :=
  {| mass := m; moment := i; position := (0, 0)%float; velocity := (0, 0)%float |}.

Definition set_position (b : Body) (p : Vec2d) : Body :=
  {| mass := mass b; moment := moment b; position := p; velocity := velocity b |}.

Definition set_velocity (b : Body) (v : Vec2d) : Body :=
  {| mass := mass b; moment := moment b; position := position b; velocity := v |}.

(** [pymunk.moment_for_box(mass, (width, height))]: the moment of inertia
    of a solid box, [mass * (width^2 + height^2) / 12]. *)
Definition moment_for_box (m : float) (size : float * float) : float :=
  let '(w, h) := size in (m * (w * w + h * h) / 12)%float.

(** What a shape is attached to: the space's static body, or a body. *)
Inductive Attached : Type :=
| static_body
| dynamic (b : Body).

(** The two shapes of the program: a box of a given size centred on its
    body ([Poly.create_box], corner radius 0), and a segment from [a] to
    [b] grown by a thickness [radius] ([Segment]). *)
Inductive Geometry : Type :=
| Box (size : float * float) (radius : float)
| Seg (a b : Vec2d) (radius : float).

Record Shape : Type := mkShape {
  body : Attached;
  geometry : Geometry;
  elasticity : float
}.

Definition Poly_create_box (b : Attached) (size : float * float) : Shape :=
  {| body := b; geometry := Box size 0%float; elasticity := 0%float |}.

Definition Segment (bd : Attached) (a b : Vec2d) (radius : float) : Shape :=
  {| body := bd; geometry := Seg a b radius; elasticity := 0%float |}.

(** [shape.elasticity = e].  The engine's setter asserts [e >= 0] with a
    hard assertion: a negative [e], or NaN, ends the process. *)
Definition set_elasticity (s : Shape) (e : float) : result Shape :=
  if PrimFloat.leb 0 e
  then Ok {| body := body s; geometry := geometry s; elasticity := e |}
  else Raise (Aborted "Elasticity must be positive.").

(** A space: its gravity, the bodies and the shapes added to it.  (The
    solver settings keep their defaults; the program never sets them.) *)
Record Space : Type := mkSpace {
  gravity : Vec2d;
  bodies : list Body;
  shapes : list Shape
}.

Definition Space_new : Space :=
  {| gravity := (0, 0)%float; bodies := []; shapes := [] |}.

Definition set_gravity (sp : Space) (g : Vec2d) : Space :=
  {| gravity := g; bodies := bodies sp; shapes := shapes sp |}.

Definition add_body (sp : Space) (b : Body) : Space :=
  {| gravity := gravity sp; bodies := bodies sp ++ [b]; shapes := shapes sp |}.

Definition add_shape (sp : Space) (s : Shape) : Space :=
  {| gravity := gravity sp; bodies := bodies sp; shapes := shapes sp ++ [s] |}.

(** *** What the engine's collision detection sees

    Every shape has an axis-aligned bounding box; two shapes whose boxes
    do not meet are never tested for contact. *)
Record BB : Type := mkBB { bb_l : float; bb_b : float; bb_r : float; bb_t : float }.

Definition attached_position (a : Attached) : Vec2d :=
  match a with
  | static_body => (0, 0)%float
  | dynamic b => position b
  end.

Definition fmin (a b : float) : float := if PrimFloat.ltb a b then a else b.
Definition fmax (a b : float) : float := if PrimFloat.ltb a b then b else a.

Definition shape_bb (s : Shape) : BB :=
  let '(px, py) := attached_position (body s) in
  match geometry s with
  | Box (w, h) r =>
      {| bb_l := px - w / 2 - r; bb_b := py - h / 2 - r;
         bb_r := px + w / 2 + r; bb_t := py + h / 2 + r |}%float
  | Seg (ax, ay) (bx, by_) r =>
      {| bb_l := px + fmin ax bx - r; bb_b := py + fmin ay by_ - r;
         bb_r := px + fmax ax bx + r; bb_t := py + fmax ay by_ + r |}%float
  end.

Definition bb_intersects (a b : BB) : bool :=
  PrimFloat.leb (bb_l a) (bb_r b) && PrimFloat.leb (bb_l b) (bb_r a)
  && PrimFloat.leb (bb_b a) (bb_t b) && PrimFloat.leb (bb_b b) (bb_t a).

Definition is_static (s : Shape) : bool :=
  match body s with static_body => true | dynamic _ => false end.

(** No shape of a body has a bounding box that meets the bounding box of
    a shape of the static body. *)
Definition clear_of_statics (sp : Space) : bool :=
  forallb
    (fun s => is_static s
              || forallb (fun w => negb (is_static w)
                                   || negb (bb_intersects (shape_bb s) (shape_bb w)))
                         (shapes sp))
    (shapes sp).

Definition is_zero_vec (v : Vec2d) : bool :=
  PrimFloat.is_zero (fst v) && PrimFloat.is_zero (snd v).

(** Two floats that are the same number: identical, or equal as floats
    (the two zeros). *)
Definition same_float (a b : float) : Prop :=
  a = b \/ PrimFloat.eqb a b = true.

Definition same_place (p q : Vec2d) : Prop :=
  same_float (fst p) (fst q) /\ same_float (snd p) (snd q).

(** The one law of motion the properties below ask of a solver: in a
    space with a single body, no gravity and the body at rest and clear
    of every static shape, a step of finite length leaves the body where
    it is. *)
Definition keeps_rest (step : Space -> float -> Space) : Prop :=
  forall (sp : Space) (dt : float) (b : Body),
    bodies sp = [b] ->
    PrimFloat.is_finite dt = true ->
    is_zero_vec (gravity sp) = true ->
    is_zero_vec (velocity b) = true ->
    clear_of_statics sp = true ->
    exists b', bodies (step sp dt) = [b']
               /\ same_place (position b') (position b).

End pymunk.

(** ** The signature of [generate_random_sequence] *)

(** A default value as the [def] line writes it. *)
Inductive py_value : Type :=
| PyInt (z : Z)
| PyFloat (f : float).

Definition to_float (v : py_value) : float :=
  match v with
  | PyInt z => float_of_int z
  | PyFloat f => f
  end.

(** The value of an integer parameter ([range] takes nothing else; both
    integer parameters have integer defaults). *)
Definition to_int (v : py_value) : Z :=
  match v with
  | PyInt z => z
  | PyFloat _ => 0
  end.

(** [np.pi], the double nearest to pi. *)
Definition np_pi : float := 0x1.921fb54442d18p+1%float.

(** The parameters of [generate_random_sequence], in order, each with its
    default. *)
Definition generate_random_sequence_signature : list (string * py_value) :=
  [ ("sequence_length", PyInt 10);
    ("frame_rate", PyInt 30);
    ("speed_min", PyInt 0);
    ("speed_max", PyInt 10);
    ("direction_min", PyInt 0);
    ("direction_max", PyFloat (2 * np_pi)%float);
    ("position_x_min", PyInt 0);
    ("position_x_max", PyInt 16);
    ("position_y_min", PyInt 0);
    ("position_y_max", PyInt 16);
    ("gravity_min", PyInt 5);
    ("gravity_max", PyInt 10);
    ("restitution_min", PyFloat 0.5%float);
    ("restitution_max", PyInt 1) ]%string.

Fixpoint lookup (name : string) (sig : list (string * py_value)) : option py_value :=
  match sig with
  | [] => None
  | (n, v) :: sig' => if String.eqb n name then Some v else lookup name sig'
  end.



(** The keyword arguments of [generate_random_sequence]. *)
Record sampler_args : Type := mkArgs {
  sequence_length : Z;
  frame_rate : Z;
  speed_min : float;
  speed_max : float;
  direction_min : float;
  direction_max : float;
  position_x_min : float;
  position_x_max : float;
  position_y_min : float;
  position_y_max : float;
  gravity_min : float;
  gravity_max : float;
  restitution_min : float;
  restitution_max : float
}.

Definition default (name : string) : py_value :=
  match lookup name generate_random_sequence_signature with
  | Some v => v
  | None => PyInt 0
  end.

(** The arguments of a call that passes none. *)
Definition generate_random_sequence_defaults : sampler_args :=
  {| sequence_length := to_int (default "sequence_length");
     frame_rate := to_int (default "frame_rate");
     speed_min := to_float (default "speed_min");
     speed_max := to_float (default "speed_max");
     direction_min := to_float (default "direction_min");
     direction_max := to_float (default "direction_max");
     position_x_min := to_float (default "position_x_min");
     position_x_max := to_float (default "position_x_max");
     position_y_min := to_float (default "position_y_min");
     position_y_max := to_float (default "position_y_max");
     gravity_min := to_float (default "gravity_min");
     gravity_max := to_float (default "gravity_max");
     restitution_min := to_float (default "restitution_min");
     restitution_max := to_float (default "restitution_max") |}.

(** The six ranges a call samples from, in the order it samples them. *)
Definition ranges (a : sampler_args) : list (float * float) :=
  [ (speed_min a, speed_max a);
    (direction_min a, direction_max a);
    (position_x_min a, position_x_max a);
    (position_y_min a, position_y_max a);
    (gravity_min a, gravity_max a);
    (restitution_min a, restitution_max a) ].

(** ** The program *)

Section DataGeneration.

Import pymunk.

(** [np.cos] and [np.sin]. *)
Variables np_cos np_sin : float -> float.

(** [space.step(dt)]: the solver of the rigid-body engine, from the scene
    before the step to the scene after it. *)
Variable step : Space -> float -> Space.

(** numpy's global random generator: its state, and the next unit variate
    (a double in [0, 1)) it yields, which moves the state on. *)
Variable RandomState : Type.
Variable next_double : RandomState -> float * RandomState.

(** [np.random.uniform(low, high)]: a range whose width is not finite is
    an [OverflowError]; otherwise [low + (high - low) * u] for the next unit
    variate [u]. *)
Definition np_random_uniform (low high : float) (rng : RandomState)
  : result float * RandomState :=
  let range := (high - low)%float in
  if PrimFloat.is_finite range
  then let '(u, rng) := next_double rng in (Ok (low + range * u)%float, rng)
  else (Raise (OverflowError "Range exceeds valid bounds"), rng).

(** Lines 32-59 of [simulate_motion]: the space and the body as they are
    just before the step. *)
Definition simulate_motion_scene (initial_pos velocity : Vec2d)
    (gravity restitution : float) : result (Space * Body) :=
  let space := Space_new in
  let space := set_gravity space (0, - gravity)%float in
  let side := float_of_int (SHAPE_SIDE_LENGTH + 1) in
  let body := Body_new 1 (moment_for_box 1 (side, side)) in
  let body := set_position body initial_pos in
  let body := set_velocity body velocity in
  let shape := Poly_create_box (dynamic body) (side, side) in
  shape <- set_elasticity shape restitution ;;
  let space := add_shape (add_body space body) shape in
  let W := float_of_int IMAGE_WIDTH in
  let H := float_of_int IMAGE_HEIGHT in
  let static_lines :=
    [ Segment static_body (0, 0)%float (0%float, H) 1;
      Segment static_body (0%float, H) (W, H) 1;
      Segment static_body (W, H) (W, 0%float) 1;
      Segment static_body (W, 0%float) (0, 0)%float 1 ] in
  space <- fold_left_result
             (fun space line =>
                line <- set_elasticity line restitution ;;
                Ok (add_shape space line))
             static_lines space ;;
  Ok (space, body).

(** Lines 64-68: [body] is the object the space holds, so its position
    and velocity are read as the step left them. *)
Definition read_back (space : Space) (body : Body) : Vec2d * Vec2d :=
  let body := nth 0 (bodies space) body in
  let new_pos := (fst (position body), snd (position body)) in
  let new_vel := (fst (pymunk.velocity body), snd (pymunk.velocity body)) in
  (new_pos, new_vel).

Definition simulate_motion (initial_pos velocity : Vec2d)
    (gravity restitution time_step : float) : result (Vec2d * Vec2d) :=
  '(space, body) <- simulate_motion_scene initial_pos velocity gravity restitution ;;
  let space := step space time_step in
  Ok (read_back space body).

(** The inner loop of [generate_sequence]: [n] calls of the stepper. *)
Fixpoint substeps (n : nat) (position velocity : Vec2d)
    (gravity coefficient_of_restitution : float) : result (Vec2d * Vec2d) :=
  match n with
  | O => Ok (position, velocity)
  | S n' =>
      '(position, velocity) <-
        simulate_motion position velocity gravity coefficient_of_restitution
                        (1 / 60)%float ;;
      substeps n' position velocity gravity coefficient_of_restitution
  end.

Definition adjusted_position (position : Vec2d) : Vec2d :=
  (fst position,
   (float_of_int IMAGE_HEIGHT - snd position - float_of_int SHAPE_SIDE_LENGTH)%float).

(** The outer loop: [n] frames still to produce. *)
Fixpoint frames (n : nat) (frame_rate : Z)
    (gravity coefficient_of_restitution : float)
    (images : list PIL.Image) (positions : list Vec2d)
    (position velocity : Vec2d) : result (list PIL.Image * list Vec2d) :=
  match n with
  | O => Ok (images, positions)
  | S n' =>
      '(position, velocity) <-
        substeps (Z.to_nat frame_rate) position velocity gravity
                 coefficient_of_restitution ;;
      image <- draw_frame (adjusted_position position) ;;
      frames n' frame_rate gravity coefficient_of_restitution
             (images ++ [image]) (positions ++ [position]) position velocity
  end.

(** [range(n)] of an [int] is [Z.to_nat n] rounds: none when [n <= 0].
    With float arguments [-initial_speed * sin] of a zero speed is [-0.0]
    where an [int] zero gives [0.0]; the two zeros are equal as floats. *)
Definition generate_sequence (sequence_length : Z)
    (initial_speed initial_direction : float) (initial_position : Vec2d)
    (gravity coefficient_of_restitution : float) (frame_rate : Z)
  : result (list PIL.Image * list Vec2d) :=
  let images := [] in
  let position := initial_position in
  let velocity :=
    (initial_speed * np_cos initial_direction,
     - initial_speed * np_sin initial_direction)%float in
  let positions := [] in
  frames (Z.to_nat sequence_length) frame_rate gravity coefficient_of_restitution
         images positions position velocity.

Definition generate_random_sequence (a : sampler_args)
  : RandomState -> result (list PIL.Image * list Vec2d) * RandomState :=
  initial_speed <~ np_random_uniform (speed_min a) (speed_max a) ;;
  initial_direction <~ np_random_uniform (direction_min a) (direction_max a) ;;
  initial_position_x <~ np_random_uniform (position_x_min a) (position_x_max a) ;;
  initial_position_y <~ np_random_uniform (position_y_min a) (position_y_max a) ;;
  gravity <~ np_random_uniform (gravity_min a) (gravity_max a) ;;
  coefficient_of_restitution <~
    np_random_uniform (restitution_min a) (restitution_max a) ;;
  fun rng =>
    (generate_sequence (sequence_length a) initial_speed initial_direction
                       (initial_position_x, initial_position_y)
                       gravity coefficient_of_restitution (frame_rate a),
     rng).

(** The state a call of the stepper returns (the state it was given, when
    the call does not return). *)
Definition stepped (position velocity : Vec2d)
    (gravity restitution time_step : float) : Vec2d * Vec2d :=
  match simulate_motion position velocity gravity restitution time_step with
  | Ok s => s
  | Raise _ => (position, velocity)
  end.

End DataGeneration.

(** ** The sequence generator in the specification's words

    "Convert initial speed/direction (polar) to a velocity vector; for each
    of N frames invoke the stepper frame_rate times in sequence, each with
    time_step = 1/60, threading position and velocity through; rasterize the
    converted position; record the raw position." *)

Section InTheSpecsWords.

Import pymunk.

Variables np_cos np_sin : float -> float.
Variable stepper : Vec2d -> Vec2d -> float -> float -> float -> Vec2d * Vec2d.

Definition polar_to_velocity (speed direction : float) : Vec2d :=
  (speed * np_cos direction, - speed * np_sin direction)%float.

(** One invocation of the stepper on a (position, velocity) state. *)
Definition invoke (gravity restitution : float) (s : Vec2d * Vec2d)
  : Vec2d * Vec2d :=
  stepper (fst s) (snd s) gravity restitution (1 / 60)%float.

(** The states at the ends of [n] successive frames that start from [s]:
    each is [frame_rate] invocations after the one before. *)
Fixpoint frame_states (n frame_rate : nat) (gravity restitution : float)
    (s : Vec2d * Vec2d) : list (Vec2d * Vec2d) :=
  match n with
  | O => []
  | S n' =>
      let s' := Nat.iter frame_rate (invoke gravity restitution) s in
      s' :: frame_states n' frame_rate gravity restitution s'
  end.

Definition spec_positions (N : Z) (speed direction : float) (p0 : Vec2d)
    (gravity restitution : float) (frame_rate : Z) : list Vec2d :=
  map fst (frame_states (Z.to_nat N) (Z.to_nat frame_rate) gravity restitution
                        (p0, polar_to_velocity speed direction)).

(** "y_image = H - y_physics - s; the x-coordinate is unchanged." *)
Definition to_image (p : Vec2d) : Vec2d :=
  (fst p,
   (float_of_int IMAGE_HEIGHT - snd p - float_of_int SHAPE_SIDE_LENGTH)%float).

End InTheSpecsWords.

(** ** Runs of the generator over a solver given as a relation

    For the determinism property the solver is a relation between the scene
    before a step and the scenes the step may leave, so that a solver with
    a choice of outcomes can be told from one without. *)

Section Runs.

Import pymunk.

Variables np_cos np_sin : float -> float.
Variable may_step : Space -> float -> Space -> Prop.

Definition deterministic : Prop :=
  forall sp dt sp1 sp2, may_step sp dt sp1 -> may_step sp dt sp2 -> sp1 = sp2.

(** A call of [simulate_motion]. *)
Inductive simulate_motion_run (initial_pos velocity : Vec2d)
    (gravity restitution time_step : float) : result (Vec2d * Vec2d) -> Prop :=
| run_simulate_motion_abort (e : exception) :
    simulate_motion_scene initial_pos velocity gravity restitution = Raise e ->
    simulate_motion_run initial_pos velocity gravity restitution time_step (Raise e)
| run_simulate_motion (space space' : Space) (body : Body) :
    simulate_motion_scene initial_pos velocity gravity restitution = Ok (space, body) ->
    may_step space time_step space' ->
    simulate_motion_run initial_pos velocity gravity restitution time_step
      (Ok (read_back space' body)).

(** The inner loop. *)
Inductive substeps_run (gravity restitution : float)
  : nat -> Vec2d * Vec2d -> result (Vec2d * Vec2d) -> Prop :=
| run_substeps_done (s : Vec2d * Vec2d) :
    substeps_run gravity restitution O s (Ok s)
| run_substeps_abort (n : nat) (s : Vec2d * Vec2d) (e : exception) :
    simulate_motion_run (fst s) (snd s) gravity restitution (1 / 60)%float (Raise e) ->
    substeps_run gravity restitution (S n) s (Raise e)
| run_substeps_more (n : nat) (s s' : Vec2d * Vec2d) (out : result (Vec2d * Vec2d)) :
    simulate_motion_run (fst s) (snd s) gravity restitution (1 / 60)%float (Ok s') ->
    substeps_run gravity restitution n s' out ->
    substeps_run gravity restitution (S n) s out.

(** The outer loop. *)
Inductive frames_run (frame_rate : Z) (gravity restitution : float)
  : nat -> list PIL.Image -> list Vec2d -> Vec2d * Vec2d ->
    result (list PIL.Image * list Vec2d) -> Prop :=
| run_frames_done images positions s :
    frames_run frame_rate gravity restitution O images positions s
               (Ok (images, positions))
| run_frames_abort n images positions s e :
    substeps_run gravity restitution (Z.to_nat frame_rate) s (Raise e) ->
    frames_run frame_rate gravity restitution (S n) images positions s (Raise e)
| run_frames_raise n images positions s s' e :
    substeps_run gravity restitution (Z.to_nat frame_rate) s (Ok s') ->
    draw_frame (adjusted_position (fst s')) = Raise e ->
    frames_run frame_rate gravity restitution (S n) images positions s (Raise e)
| run_frames_more n images positions s s' image out :
    substeps_run gravity restitution (Z.to_nat frame_rate) s (Ok s') ->
    draw_frame (adjusted_position (fst s')) = Ok image ->
    frames_run frame_rate gravity restitution n
               (images ++ [image]) (positions ++ [fst s']) s' out ->
    frames_run frame_rate gravity restitution (S n) images positions s out.

Definition generate_sequence_run (sequence_length : Z)
    (initial_speed initial_direction : float) (initial_position : Vec2d)
    (gravity coefficient_of_restitution : float) (frame_rate : Z)
    (out : result (list PIL.Image * list Vec2d)) : Prop :=
  frames_run frame_rate gravity coefficient_of_restitution
             (Z.to_nat sequence_length) [] []
             (initial_position,
              (initial_speed * np_cos initial_direction,
               - initial_speed * np_sin initial_direction)%float)
             out.

End Runs.

(** A solver given as a function, seen as a relation. *)
Definition as_relation (step : pymunk.Space -> float -> pymunk.Space)
  : pymunk.Space -> float -> pymunk.Space -> Prop :=
  fun sp dt sp' => sp' = step sp dt.

(** ** The sampler in the specification's words

    "Independent uniform sampling of speed, direction, initial x/y position,
    gravity, restitution, each within its [min, max] range." *)

(** A value of the range [r] from a unit variate [u]: the point a fraction
    [u] of the way from its low end to its high end.  Over a [u] uniform on
    [0, 1) this is the uniform sample of the range. *)
Definition uniform_of (r : float * float) (u : float) : float :=
  (fst r + (snd r - fst r) * u)%float.

(** The width of the range is a finite number. *)
Definition finite_width (r : float * float) : bool :=
  PrimFloat.is_finite (snd r - fst r)%float.

Section Sampling.

Variable RandomState : Type.
Variable next_double : RandomState -> float * RandomState.

(** The next [n] unit variates of the generator, and the state after
    them.  They are the generator's own: no range enters. *)
Fixpoint variates (n : nat) (rng : RandomState) : list float * RandomState :=
  match n with
  | O => ([], rng)
  | S n' =>
      let '(u, rng) := next_double rng in
      let '(us, rng) := variates n' rng in
      (u :: us, rng)
  end.

End Sampling.

(** The ranges before the first one whose width is not finite. *)
Fixpoint finite_prefix (rs : list (float * float)) : list (float * float) :=
  match rs with
  | [] => []
  | r :: rs' => if finite_width r then r :: finite_prefix rs' else []
  end.

(** ** Stand-ins for the libraries, for the examples

    Concrete functions to run the program on: the leading terms of the
    cosine and sine series, a solver that moves every body freely (one step
    of its velocity, then one step of gravity on the velocity; walls are
    ignored), and a random generator whose every variate is one half. *)

Module StandIn.

Import pymunk.

Definition cos (x : float) : float := (1 - x * x / 2)%float.
Definition sin (x : float) : float := (x - x * x * x / 6)%float.

Definition fly (g : Vec2d) (dt : float) (b : Body) : Body :=
  {| mass := mass b;
     moment := moment b;
     position := (fst (position b) + fst (velocity b) * dt,
                  snd (position b) + snd (velocity b) * dt)%float;
     velocity := (fst (velocity b) + fst g * dt,
                  snd (velocity b) + snd g * dt)%float |}.

Definition free_flight (sp : Space) (dt : float) : Space :=
  {| gravity := gravity sp;
     bodies := map (fly (gravity sp) dt) (bodies sp);
     shapes :=
       map (fun s =>
              {| body := match body s with
                         | static_body => static_body
                         | dynamic b => dynamic (fly (gravity sp) dt b)
                         end;
                 geometry := geometry s;
                 elasticity := elasticity s |})
           (shapes sp) |}.

Definition halves (st : nat) : float * nat := (0.5%float, S st).

End StandIn.

(** * Properties *)

(** ** Facts about binary64 arithmetic *)

(** Adding [+0.0] changes nothing but the sign of a zero. *)
Lemma Prim2SF_add_zero (x : float) :
  Prim2SF (x + 0)%float =
    match Prim2SF x with
    | S754_zero _ => S754_zero false
    | sx => sx
    end.
Proof.
  rewrite FloatAxioms.add_spec.
  change (Prim2SF 0%float) with (S754_zero false).
  destruct (Prim2SF x) as [[|] | [|] | | s m e]; reflexivity.
Qed.

Lemma SFcompare_refl_not_Lt (sx : spec_float) : SFltb sx sx = false.
Proof.
  unfold SFltb.
  destruct sx as [[|] | [|] | | [|] m e]; simpl; try reflexivity;
    rewrite Z.compare_refl, Pos.compare_cont_refl; reflexivity.
Qed.

(** [x + 0 < x] is false for every float, NaN and the infinities included. *)
Lemma add_zero_not_below (x : float) : PrimFloat.ltb (x + 0)%float x = false.
Proof.
  rewrite FloatAxioms.ltb_spec, Prim2SF_add_zero.
  destruct (Prim2SF x) as [[|] | [|] | | [|] m e] eqn:E;
    try reflexivity; apply SFcompare_refl_not_Lt.
Qed.

Lemma c_int_add_zero (x : float) : PIL.c_int (x + 0)%float = PIL.c_int x.
Proof.
  unfold PIL.c_int. rewrite Prim2SF_add_zero.
  destruct (Prim2SF x); reflexivity.
Qed.

(** ** Lists with indices *)

Lemma mapi_from_length {A B : Type} (f : Z -> A -> B) (l : list A) :
  forall i, List.length (mapi_from f i l) = List.length l.
Proof.
  induction l as [| a l IH]; intros i; simpl; [reflexivity | now rewrite IH].
Qed.

Lemma mapi_from_nth_error {A B : Type} (f : Z -> A -> B) (l : list A) :
  forall i n,
    nth_error (mapi_from f i l) n = option_map (f (i + Z.of_nat n)) (nth_error l n).
Proof.
  induction l as [| a l IH]; intros i n.
  - destruct n; reflexivity.
  - destruct n as [| n]; simpl.
    + now rewrite Z.add_0_r.
    + rewrite IH. f_equal. f_equal. lia.
Qed.

(** ** The imaging library *)

Lemma getpixel_new (m : string) (w h : Z) (color : PIL.pixel) (x y : Z) :
  0 <= x < w -> 0 <= y < h ->
  PIL.getpixel (PIL.new m (w, h) color) (x, y) = Some color.
Proof.
  intros Hx Hy. unfold PIL.getpixel, PIL.new; simpl.
  destruct (Z.ltb_spec x 0); [lia |].
  destruct (Z.ltb_spec y 0); [lia |]. simpl.
  rewrite (nth_error_repeat _ (m := Z.to_nat h) (n := Z.to_nat y)) by lia.
  apply nth_error_repeat. lia.
Qed.

Lemma getpixel_outside_new (m : string) (w h : Z) (color : PIL.pixel) (x y : Z) :
  ~ (0 <= x < w /\ 0 <= y < h) ->
  PIL.getpixel (PIL.new m (w, h) color) (x, y) = None.
Proof.
  intros H. unfold PIL.getpixel, PIL.new; simpl.
  destruct (Z.ltb_spec x 0); [reflexivity |].
  destruct (Z.ltb_spec y 0); [reflexivity |]. simpl.
  destruct (Z_lt_dec y h) as [Hy | Hy].
  - rewrite (nth_error_repeat _ (m := Z.to_nat h) (n := Z.to_nat y)) by lia.
    apply nth_error_None. rewrite repeat_length. lia.
  - replace (nth_error _ (Z.to_nat y)) with (@None (list PIL.pixel)); [reflexivity |].
    symmetry. apply nth_error_None. rewrite repeat_length. lia.
Qed.

(** A pixel of the image after a filled rectangle: the ink inside the
    rectangle, the old pixel outside; the image has the same pixels. *)
Lemma getpixel_ImagingDrawRectangle (im : PIL.Image) (x0 y0 x1 y1 : Z)
    (ink : PIL.pixel) (x y : Z) :
  PIL.getpixel (PIL.ImagingDrawRectangle im x0 y0 x1 y1 ink) (x, y) =
    option_map
      (fun p => if (x0 <=? x) && (x <=? x1)
                   && (Z.min y0 y1 <=? y) && (y <=? Z.max y0 y1)
                then ink else p)
      (PIL.getpixel im (x, y)).
Proof.
  unfold PIL.getpixel, PIL.ImagingDrawRectangle.
  destruct (Z.ltb_spec x 0) as [Hx | Hx]; simpl; [reflexivity |].
  destruct (Z.ltb_spec y 0) as [Hy | Hy]; simpl; [reflexivity |].
  assert (Hrow : forall ya yb,
    match nth_error
            (mapi_from (fun y row => if (ya <=? y) && (y <=? yb)
                                     then PIL.hline row x0 x1 ink else row)
                       0 (PIL.data im)) (Z.to_nat y) with
    | Some row => nth_error row (Z.to_nat x)
    | None => None
    end =
    option_map
      (fun p => if (x0 <=? x) && (x <=? x1) && (ya <=? y) && (y <=? yb)
                then ink else p)
      match nth_error (PIL.data im) (Z.to_nat y) with
      | Some row => nth_error row (Z.to_nat x)
      | None => None
      end).
  { intros ya yb. rewrite mapi_from_nth_error.
    rewrite Z.add_0_l, Z2Nat.id by lia.
    destruct (nth_error (PIL.data im) (Z.to_nat y)) as [row |];
      cbn [option_map]; [| reflexivity].
    destruct ((ya <=? y) && (y <=? yb)) eqn:Ey.
    - unfold PIL.hline. rewrite mapi_from_nth_error, Z.add_0_l, Z2Nat.id by lia.
      rewrite <- andb_assoc, Ey, andb_true_r. reflexivity.
    - rewrite <- andb_assoc, Ey, andb_false_r.
      destruct (nth_error row (Z.to_nat x)); reflexivity. }
  apply Hrow.
Qed.

(** [draw_frame] as one equation: since [x + s] is never below [x] for the
    side [s = 0], neither [ValueError] can be raised. *)
Lemma draw_frame_Ok (x y : float) :
  draw_frame (x, y) =
    Ok (PIL.ImagingDrawRectangle
          (PIL.new "1" (IMAGE_WIDTH, IMAGE_HEIGHT) PIL.White)
          (PIL.c_int x) (PIL.c_int y)
          (PIL.c_int (x + float_of_int SHAPE_SIDE_LENGTH))
          (PIL.c_int (y + float_of_int SHAPE_SIDE_LENGTH)) PIL.Black).
Proof.
  unfold draw_frame, PIL.rectangle.
  change (float_of_int SHAPE_SIDE_LENGTH) with 0%float.
  now rewrite !add_zero_not_below.
Qed.

(** ** The frame rasterizer *)

Example draw_frame_inside :
  exists image, draw_frame (3.75, 12.25)%float = Ok image
                /\ PIL.getpixel image (3, 12) = Some PIL.Black
                /\ PIL.getpixel image (4, 12) = Some PIL.White
                /\ PIL.getpixel image (3, 13) = Some PIL.White.
Proof.
  eexists. split; [vm_compute; reflexivity |].
  split; [vm_compute; reflexivity |]. split; vm_compute; reflexivity.
Qed.

Example draw_frame_outside :
  draw_frame (20, -3)%float = Ok (PIL.new "1" (16, 16) PIL.White)
  /\ draw_frame (nan, infinity)%float = Ok (PIL.new "1" (16, 16) PIL.White).
Proof. split; vm_compute; reflexivity. Qed.

(** C6.  For every position [(x, y_image)] the rasterizer returns a 16x16
    image of mode "1" whose pixel in column [i], row [j] is black exactly
    when [(i, j)] lies in the rectangle from [(x, y_image)] to
    [(x + s, y_image + s)], both corners included, the corners taken as the
    pixel coordinates the drawing call casts them to; every other pixel is
    white. *)
Theorem draw_frame_rectangle (x y_image : float) :
  let s := float_of_int SHAPE_SIDE_LENGTH in
  exists image,
    draw_frame (x, y_image) = Ok image
    /\ PIL.mode image = "1"%string
    /\ PIL.size image = (16, 16)
    /\ forall i j,
         0 <= i < 16 -> 0 <= j < 16 ->
         PIL.getpixel image (i, j) =
           Some (if (PIL.c_int x <=? i) && (i <=? PIL.c_int (x + s))
                    && (PIL.c_int y_image <=? j) && (j <=? PIL.c_int (y_image + s))
                 then PIL.Black else PIL.White).
Proof.
  intros s. eexists. split; [apply draw_frame_Ok |].
  split; [reflexivity |]. split; [reflexivity |].
  intros i j Hi Hj.
  rewrite getpixel_ImagingDrawRectangle. unfold IMAGE_WIDTH, IMAGE_HEIGHT.
  rewrite (getpixel_new "1" 16 16 PIL.White i j Hi Hj).
  cbn [option_map]. fold s.
  change (float_of_int SHAPE_SIDE_LENGTH) with 0%float in *.
  subst s. rewrite !c_int_add_zero.
  rewrite Z.min_id, Z.max_id. reflexivity.
Qed.

(** C7.  For every position, whatever floats its coordinates are, the
    rasterizer returns an image and raises nothing.  The image is of mode
    "1" and has 16 rows of 16 pixels, and it is the rectangle clipped to
    the frame: a pixel exists exactly at the coordinates inside the 16x16
    frame, where it is black when it lies in the rectangle from [(x, y)] to
    [(x + s, y + s)] and white otherwise; the part of the rectangle that
    falls outside the frame is not drawn. *)
Theorem draw_frame_never_raises (position : float * float) :
  let s := float_of_int SHAPE_SIDE_LENGTH in
  let x := fst position in
  let y := snd position in
  exists image,
    draw_frame position = Ok image
    /\ PIL.mode image = "1"%string
    /\ PIL.size image = (16, 16)
    /\ List.length (PIL.data image) = 16%nat
    /\ Forall (fun row => List.length row = 16%nat) (PIL.data image)
    /\ forall i j,
         PIL.getpixel image (i, j) =
           if (0 <=? i) && (i <? 16) && (0 <=? j) && (j <? 16)
           then Some (if (PIL.c_int x <=? i) && (i <=? PIL.c_int (x + s))
                         && (PIL.c_int y <=? j) && (j <=? PIL.c_int (y + s))
                      then PIL.Black else PIL.White)
           else None.
Proof.
  destruct position as [x y]. cbv zeta. cbn [fst snd].
  eexists. split; [apply draw_frame_Ok |].
  split; [reflexivity |]. split; [reflexivity |].
  split; [| split].
  - unfold PIL.ImagingDrawRectangle. cbn [PIL.data].
    rewrite mapi_from_length. reflexivity.
  - unfold PIL.ImagingDrawRectangle. cbn [PIL.data].
    assert (Hrows : forall (f : Z -> list PIL.pixel -> list PIL.pixel) (l : list (list PIL.pixel)),
              (forall k row, List.length (f k row) = List.length row) ->
              Forall (fun row => List.length row = 16%nat) l ->
              forall k, Forall (fun row => List.length row = 16%nat) (mapi_from f k l)).
    { intros f l Hf Hl. induction Hl as [| row l Hrow Hl IH]; intros k; simpl.
      - constructor.
      - constructor; [now rewrite Hf | apply IH]. }
    apply Hrows.
    + intros k row. destruct (_ && _); [apply mapi_from_length | reflexivity].
    + repeat constructor.
  - intros i j. rewrite getpixel_ImagingDrawRectangle. unfold IMAGE_WIDTH, IMAGE_HEIGHT.
    change (float_of_int SHAPE_SIDE_LENGTH) with 0%float.
    rewrite !c_int_add_zero, Z.min_id, Z.max_id.
    destruct (Z.leb_spec 0 i) as [Hi | Hi]; [destruct (Z.ltb_spec i 16) as [Hi' | Hi'];
      [destruct (Z.leb_spec 0 j) as [Hj | Hj];
        [destruct (Z.ltb_spec j 16) as [Hj' | Hj'] |] |] |]; cbn [andb];
      try (rewrite (getpixel_outside_new "1" 16 16 PIL.White i j) by lia; reflexivity).
    rewrite (getpixel_new "1" 16 16 PIL.White i j) by lia. reflexivity.
Qed.

(** ** More binary64 facts: zeros, finite floats, float equality *)

Lemma is_zero_spec (v : float) :
  PrimFloat.is_zero v = true -> exists s, Prim2SF v = S754_zero s.
Proof.
  unfold PrimFloat.is_zero. rewrite FloatAxioms.eqb_spec.
  change (Prim2SF zero) with (S754_zero false).
  destruct (Prim2SF v) as [s | [|] | | [|] m e]; try discriminate.
  intros _. now exists s.
Qed.

Lemma is_finite_spec (x : float) :
  PrimFloat.is_finite x = true ->
  match Prim2SF x with
  | S754_zero _ | S754_finite _ _ _ => True
  | S754_infinity _ | S754_nan => False
  end.
Proof.
  unfold PrimFloat.is_finite, PrimFloat.is_nan, PrimFloat.is_infinity.
  rewrite !FloatAxioms.eqb_spec, FloatAxioms.abs_spec.
  change (Prim2SF infinity) with (S754_infinity false).
  destruct (Prim2SF x) as [s | [|] | | s m e]; simpl; try discriminate; exact (fun _ => I).
Qed.

(** A zero velocity moves nothing in a step of finite length. *)
Lemma add_zero_product (p v dt : float) :
  PrimFloat.is_zero v = true ->
  PrimFloat.is_finite dt = true ->
  pymunk.same_float (p + v * dt)%float p.
Proof.
  intros Hv Hdt. destruct (is_zero_spec v Hv) as [sv Ev].
  apply is_finite_spec in Hdt.
  assert (Ez : exists sz, Prim2SF (v * dt)%float = S754_zero sz).
  { rewrite FloatAxioms.mul_spec, Ev.
    destruct (Prim2SF dt) as [sd | sd | | sd m e]; try contradiction;
      simpl; eexists; reflexivity. }
  destruct Ez as [sz Ez].
  assert (Es : Prim2SF (p + v * dt)%float = Prim2SF p
               \/ exists s1 s2, Prim2SF (p + v * dt)%float = S754_zero s1
                                /\ Prim2SF p = S754_zero s2).
  { rewrite FloatAxioms.add_spec, Ez.
    destruct (Prim2SF p) as [sp | sp | | sp m e]; simpl.
    - right. destruct sp, sz; do 2 eexists; split; reflexivity.
    - left. reflexivity.
    - left. reflexivity.
    - left. reflexivity. }
  destruct Es as [Es | (s1 & s2 & E1 & E2)].
  - left. now apply Prim2SF_inj.
  - right. rewrite FloatAxioms.eqb_spec, E1, E2. reflexivity.
Qed.

(** Equal as floats to a nonzero number means identical to it. *)
Lemma same_float_finite (a b : float) (s : bool) (m : positive) (e : Z) :
  Prim2SF b = S754_finite s m e -> pymunk.same_float a b -> a = b.
Proof.
  intros Eb [H | H]; [exact H |].
  rewrite FloatAxioms.eqb_spec, Eb in H.
  apply Prim2SF_inj. rewrite Eb.
  unfold SFeqb, SFcompare in H.
  destruct (Prim2SF a) as [sa | sa | | sa ma ea]; try discriminate.
  - destruct s; discriminate.
  - destruct sa; discriminate.
  - destruct sa, s; try discriminate;
      destruct (Z.compare_spec ea e) as [He | He | He]; try discriminate; subst ea;
      destruct (Pos.compare_cont Eq ma m) eqn:Em; try discriminate;
      apply Pos.compare_eq in Em; now subst ma.
Qed.

(** ** The stand-in solver obeys the law of rest *)

Lemma free_flight_keeps_rest : pymunk.keeps_rest StandIn.free_flight.
Proof.
  intros sp dt b Hb Hdt _ Hv _.
  exists (StandIn.fly (pymunk.gravity sp) dt b). split.
  - unfold StandIn.free_flight; cbn [pymunk.bodies]. now rewrite Hb.
  - unfold pymunk.is_zero_vec in Hv. apply andb_true_iff in Hv as [Hx Hy].
    split; cbn [StandIn.fly pymunk.position fst snd]; now apply add_zero_product.
Qed.

(** ** The stepper: when it returns and when it aborts *)

Section Stepper.

Import pymunk.

Variable step : Space -> float -> Space.

(** With a restitution the engine accepts, the scene is built. *)
Lemma simulate_motion_scene_Ok (p v : Vec2d) (g e : float) :
  PrimFloat.leb 0 e = true ->
  exists space body, simulate_motion_scene p v g e = Ok (space, body).
Proof.
  intros He. unfold simulate_motion_scene, set_elasticity. rewrite He.
  cbn [bind fold_left_result]. eexists _, _. reflexivity.
Qed.

(** With any other restitution, the first assignment of an elasticity ends
    the call. *)
Lemma simulate_motion_scene_abort (p v : Vec2d) (g e : float) :
  PrimFloat.leb 0 e = false ->
  simulate_motion_scene p v g e = Raise (Aborted "Elasticity must be positive.").
Proof.
  intros He. unfold simulate_motion_scene, set_elasticity. now rewrite He.
Qed.

Lemma simulate_motion_returns (p v : Vec2d) (g e dt : float) :
  PrimFloat.leb 0 e = true ->
  simulate_motion step p v g e dt = Ok (stepped step p v g e dt).
Proof.
  intros He. unfold stepped.
  destruct (simulate_motion step p v g e dt) as [s | ex] eqn:E; [reflexivity |].
  unfold simulate_motion in E.
  destruct (simulate_motion_scene_Ok p v g e He) as (space & body & Hs).
  rewrite Hs in E. discriminate.
Qed.

Lemma simulate_motion_aborts (p v : Vec2d) (g e dt : float) :
  PrimFloat.leb 0 e = false ->
  simulate_motion step p v g e dt = Raise (Aborted "Elasticity must be positive.").
Proof.
  intros He. unfold simulate_motion. now rewrite simulate_motion_scene_abort.
Qed.

End Stepper.

(** ** The loops of the sequence generator *)

Section Loops.

Import pymunk.

Variable step : Space -> float -> Space.
Variables gravity restitution : float.
Variable frame_rate : Z.

(** The inner loop is [n] invocations of the stepper, one after the
    other, each on the state the one before returned. *)
Lemma substeps_iter (n : nat) :
  PrimFloat.leb 0 restitution = true \/ n = O ->
  forall position velocity,
    substeps step n position velocity gravity restitution =
      Ok (Nat.iter n (invoke (stepped step) gravity restitution)
                   (position, velocity)).
Proof.
  intros [He | ->]; [| reflexivity].
  induction n as [| n IH]; intros position velocity; [reflexivity |].
  rewrite Nat.iter_succ_r. cbn [substeps].
  rewrite (simulate_motion_returns step _ _ _ _ _ He).
  unfold invoke at 2. cbn [fst snd bind].
  destruct (stepped step position velocity gravity restitution (1 / 60)%float)
    as [position' velocity'].
  apply IH.
Qed.

(** With a restitution the engine rejects, the first invocation ends the
    loop. *)
Lemma substeps_aborts (n : nat) (position velocity : Vec2d) :
  PrimFloat.leb 0 restitution = false ->
  substeps step (S n) position velocity gravity restitution =
    Raise (Aborted "Elasticity must be positive.").
Proof.
  intros He. cbn [substeps]. now rewrite (simulate_motion_aborts step _ _ _ _ _ He).
Qed.

(** The outer loop: it appends, frame after frame, the image drawn at the
    converted position and the raw position itself. *)
Lemma frames_appends (n : nat) :
  PrimFloat.leb 0 restitution = true \/ Z.to_nat frame_rate = O ->
  forall images positions position velocity,
    exists new_images,
      frames step n frame_rate gravity restitution images positions position velocity =
        Ok (images ++ new_images,
            positions
            ++ map fst (frame_states (stepped step) n (Z.to_nat frame_rate)
                                     gravity restitution (position, velocity)))
      /\ Forall2 (fun image p => draw_frame (to_image p) = Ok image)
                 new_images
                 (map fst (frame_states (stepped step) n (Z.to_nat frame_rate)
                                        gravity restitution (position, velocity))).
Proof.
  intros Hret.
  induction n as [| n IH]; intros images positions position velocity.
  - exists []. cbn. rewrite !app_nil_r. split; [reflexivity | constructor].
  - cbn [frames frame_states map]. rewrite (substeps_iter _ Hret).
    destruct (Nat.iter (Z.to_nat frame_rate)
                       (invoke (stepped step) gravity restitution)
                       (position, velocity))
      as [position' velocity'] eqn:E.
    cbn [fst bind].
    destruct (draw_frame (adjusted_position position')) as [image |] eqn:D.
    2: { destruct position' as [x y]. unfold adjusted_position in D.
         rewrite draw_frame_Ok in D. discriminate. }
    cbn [bind].
    destruct (IH (images ++ [image]) (positions ++ [position']) position' velocity')
      as [more [Hmore Hdrawn]].
    exists (image :: more). split.
    + rewrite Hmore, <- !app_assoc. reflexivity.
    + constructor; [exact D | exact Hdrawn].
Qed.

Lemma frames_aborts (n : nat) (images : list PIL.Image) (positions : list Vec2d)
    (position velocity : Vec2d) :
  PrimFloat.leb 0 restitution = false -> 0 < frame_rate ->
  frames step (S n) frame_rate gravity restitution images positions position velocity =
    Raise (Aborted "Elasticity must be positive.").
Proof.
  intros He Hfr. cbn [frames].
  destruct (Z.to_nat frame_rate) as [| k] eqn:Ek; [lia |].
  now rewrite (substeps_aborts _ _ _ He).
Qed.

(** Whatever the restitution: when the outer loop returns, what it has
    appended are positions, each with the frame drawn at its conversion. *)
Lemma frames_returned (n : nat) :
  forall images positions position velocity images' positions',
    frames step n frame_rate gravity restitution images positions position velocity =
      Ok (images', positions') ->
    exists new_images new_positions,
      images' = images ++ new_images
      /\ positions' = positions ++ new_positions
      /\ Forall2 (fun image p => draw_frame (to_image p) = Ok image)
                 new_images new_positions.
Proof.
  induction n as [| n IH]; intros images positions position velocity images' positions' H.
  - cbn in H. injection H as <- <-. exists [], []. rewrite !app_nil_r.
    repeat split. constructor.
  - cbn [frames] in H.
    destruct (substeps step (Z.to_nat frame_rate) position velocity gravity restitution)
      as [[position' velocity'] | ex]; [| discriminate].
    cbn [bind] in H.
    destruct (draw_frame (adjusted_position position')) as [image | ex] eqn:D;
      [| discriminate].
    cbn [bind] in H. apply IH in H as (more_i & more_p & -> & -> & Hd).
    exists (image :: more_i), (position' :: more_p).
    rewrite <- !app_assoc. repeat split. constructor; [exact D | exact Hd].
Qed.

Lemma frame_states_length (n fr : nat) :
  forall s,
    List.length (frame_states (stepped step) n fr gravity restitution s) = n.
Proof.
  induction n as [| n IH]; intros s; cbn; [reflexivity | now rewrite IH].
Qed.

(** The frame of index [k] ends [(k + 1) * frame_rate] invocations after
    the start. *)
Lemma frame_states_nth (n fr : nat) :
  forall k s, (k < n)%nat ->
    nth_error (frame_states (stepped step) n fr gravity restitution s) k =
      Some (Nat.iter (S k * fr) (invoke (stepped step) gravity restitution) s).
Proof.
  induction n as [| n IH]; intros k s Hk; [lia |].
  destruct k as [| k]; cbn [frame_states nth_error].
  - now rewrite Nat.mul_1_l.
  - rewrite IH by lia. f_equal.
    replace (S (S k) * fr)%nat with (S k * fr + fr)%nat by lia.
    now rewrite Nat.iter_add.
Qed.

Lemma frame_states_app (n m fr : nat) :
  forall s,
    frame_states (stepped step) (n + m) fr gravity restitution s =
      frame_states (stepped step) n fr gravity restitution s
      ++ frame_states (stepped step) m fr gravity restitution
           (Nat.iter (n * fr) (invoke (stepped step) gravity restitution) s).
Proof.
  induction n as [| n IH]; intros s; [reflexivity |].
  cbn [Nat.add frame_states app]. f_equal. rewrite IH. f_equal. f_equal.
  replace (S n * fr)%nat with (n * fr + fr)%nat by lia.
  now rewrite Nat.iter_add.
Qed.

Lemma frame_states_no_steps (n : nat) :
  forall s, frame_states (stepped step) n 0 gravity restitution s = repeat s n.
Proof.
  induction n as [| n IH]; intros s; [reflexivity |].
  cbn [frame_states Nat.iter nat_rect repeat]. now rewrite IH.
Qed.

End Loops.

(** ** The sequence generator *)

Lemma drawn_frames_map (images : list PIL.Image) (positions : list pymunk.Vec2d) :
  Forall2 (fun image p => draw_frame (to_image p) = Ok image) images positions ->
  map Ok images = map (fun p => draw_frame (to_image p)) positions.
Proof.
  induction 1 as [| image p images ps Hd _ IH]; [reflexivity |].
  cbn [map]. now rewrite Hd, IH.
Qed.

(** Frames drawn from the same positions are the same frames. *)
Lemma drawn_frames_unique (images1 images2 : list PIL.Image)
    (ps : list pymunk.Vec2d) :
  Forall2 (fun image p => draw_frame (to_image p) = Ok image) images1 ps ->
  Forall2 (fun image p => draw_frame (to_image p) = Ok image) images2 ps ->
  images1 = images2.
Proof.
  intros H1. revert images2.
  induction H1 as [| a p l1 ps Ha _ IH]; intros images2 H2; inversion H2; subst.
  - reflexivity.
  - f_equal; [congruence | now apply IH].
Qed.

Section Sequences.

Import pymunk.

Variables np_cos np_sin : float -> float.
Variable step : Space -> float -> Space.

Lemma spec_positions_length (N : Z) (speed direction : float) (p0 : Vec2d)
    (gravity restitution : float) (frame_rate : Z) :
  List.length (spec_positions np_cos np_sin (stepped step) N speed direction
                              p0 gravity restitution frame_rate) = Z.to_nat N.
Proof. unfold spec_positions. now rewrite length_map, frame_states_length. Qed.

(** The value of a call in which no stepper invocation aborts: the
    positions of the specification's algorithm, and the frames drawn from
    them. *)
Lemma generate_sequence_value (N : Z) (speed direction : float) (p0 : Vec2d)
    (gravity restitution : float) (frame_rate : Z) :
  PrimFloat.leb 0 restitution = true \/ N <= 0 \/ frame_rate <= 0 ->
  exists images,
    generate_sequence np_cos np_sin step N speed direction p0 gravity restitution
                      frame_rate =
      Ok (images,
          spec_positions np_cos np_sin (stepped step) N speed direction p0
                         gravity restitution frame_rate)
    /\ Forall2 (fun image p => draw_frame (to_image p) = Ok image) images
         (spec_positions np_cos np_sin (stepped step) N speed direction p0
                         gravity restitution frame_rate).
Proof.
  intros H. unfold generate_sequence, spec_positions.
  destruct (Z_le_gt_dec N 0) as [HN | HN].
  - replace (Z.to_nat N) with O by lia. exists []. split; [reflexivity | constructor].
  - assert (Hret : PrimFloat.leb 0 restitution = true \/ Z.to_nat frame_rate = O)
      by (destruct H as [H | [H | H]]; [now left | lia | right; lia]).
    destruct (frames_appends step gravity restitution frame_rate (Z.to_nat N) Hret
                [] [] p0 (speed * np_cos direction, - speed * np_sin direction)%float)
      as [images [Hrun Hdrawn]].
    exists images. split; [exact Hrun | exact Hdrawn].
Qed.

(** A call in which a stepper invocation is made with a restitution the
    engine rejects aborts. *)
Lemma generate_sequence_aborts (N : Z) (speed direction : float) (p0 : Vec2d)
    (gravity restitution : float) (frame_rate : Z) :
  PrimFloat.leb 0 restitution = false -> 0 < N -> 0 < frame_rate ->
  generate_sequence np_cos np_sin step N speed direction p0 gravity restitution
                    frame_rate = Raise (Aborted "Elasticity must be positive.").
Proof.
  intros He HN Hfr. unfold generate_sequence.
  destruct (Z.to_nat N) as [| n] eqn:En; [lia |].
  now apply frames_aborts.
Qed.

End Sequences.

(** Two frames of free flight to the right at speed 60, one step a frame:
    the square is drawn at columns 9 and 10 of row [16 - 8 - s]. *)
Example generate_sequence_free_flight :
  exists frame1 frame2,
    generate_sequence StandIn.cos StandIn.sin StandIn.free_flight
                      2 60 0 (8, 8)%float 0 1 1 =
      Ok ([frame1; frame2], [(9, 8); (10, 8)]%float)
    /\ PIL.getpixel frame1 (9, 8) = Some PIL.Black
    /\ PIL.getpixel frame1 (10, 8) = Some PIL.White
    /\ PIL.getpixel frame2 (10, 8) = Some PIL.Black.
Proof.
  eexists _, _. split; [vm_compute; reflexivity |].
  split; [vm_compute; reflexivity |]. split; vm_compute; reflexivity.
Qed.

(** No frames are asked for: no frames, no positions. *)
Example generate_sequence_empty :
  generate_sequence StandIn.cos StandIn.sin StandIn.free_flight
                    0 1 0 (8, 8)%float 0 1 60 = Ok ([], [])
  /\ generate_sequence StandIn.cos StandIn.sin StandIn.free_flight
                       (-3) 1 0 (8, 8)%float 0 1 60 = Ok ([], []).
Proof. split; reflexivity. Qed.

(** A negative restitution, or NaN: the first stepper call ends the run. *)
Example generate_sequence_rejected_restitution :
  generate_sequence StandIn.cos StandIn.sin StandIn.free_flight
                    1 0 0 (8, 8)%float 0 (-1) 1 =
    Raise (Aborted "Elasticity must be positive.")
  /\ generate_sequence StandIn.cos StandIn.sin StandIn.free_flight
                       1 0 0 (8, 8)%float 0 nan 1 =
       Raise (Aborted "Elasticity must be positive.").
Proof. split; vm_compute; reflexivity. Qed.


(** C2.  In a call in which no stepper invocation aborts (the restitution
    is one the engine accepts, or no invocation is made), the positions
    returned are the positions the stepper produced, frame after frame,
    [sequence_length] of them, and the frame returned with position
    [(x, y)] is the one the rasterizer draws at [(x, H - y - s)], with
    [H = 16] and [s] the side of the square: the y-coordinate is converted
    and the x-coordinate goes through unchanged. *)
Theorem generate_sequence_converts_positions
    (np_cos np_sin : float -> float)
    (step : pymunk.Space -> float -> pymunk.Space)
    (sequence_length : Z) (initial_speed initial_direction : float)
    (initial_position : pymunk.Vec2d)
    (gravity coefficient_of_restitution : float) (frame_rate : Z) :
  PrimFloat.leb 0 coefficient_of_restitution = true
  \/ sequence_length <= 0 \/ frame_rate <= 0 ->
  let H := float_of_int IMAGE_HEIGHT in
  let s := float_of_int SHAPE_SIDE_LENGTH in
  let positions :=
    spec_positions np_cos np_sin (stepped step) sequence_length initial_speed
                   initial_direction initial_position gravity
                   coefficient_of_restitution frame_rate in
  H = 16%float
  /\ (PrimFloat.leb 0 coefficient_of_restitution = true ->
      forall p v dt,
        simulate_motion step p v gravity coefficient_of_restitution dt =
          Ok (stepped step p v gravity coefficient_of_restitution dt))
  /\ exists images,
       generate_sequence np_cos np_sin step sequence_length initial_speed
         initial_direction initial_position gravity coefficient_of_restitution
         frame_rate = Ok (images, positions)
       /\ List.length positions = Z.to_nat sequence_length
       /\ List.length images = Z.to_nat sequence_length
       /\ Forall2 (fun image '(x, y) => draw_frame (x, (H - y - s)%float) = Ok image)
                  images positions.
Proof.
  intros Hret H s positions. split; [reflexivity |].
  split; [intros He p v dt; now apply simulate_motion_returns |].
  destruct (generate_sequence_value np_cos np_sin step sequence_length initial_speed
              initial_direction initial_position gravity coefficient_of_restitution
              frame_rate Hret) as [images [Hrun Hdrawn]].
  exists images. split; [exact Hrun |].
  split; [apply spec_positions_length |].
  split; [rewrite (Forall2_length Hdrawn); apply spec_positions_length |].
  eapply Forall2_impl; [| exact Hdrawn].
  intros image [x y] Hd. exact Hd.
Qed.

Lemma generate_sequence_converts_positions_witness :
  let positions :=
    spec_positions StandIn.cos StandIn.sin (stepped StandIn.free_flight)
                   2 60 0 (8, 8)%float 0 1 1 in
  (PrimFloat.leb 0 1 = true \/ 2 <= 0 \/ 1 <= 0)
  /\ float_of_int IMAGE_HEIGHT = 16%float
  /\ (PrimFloat.leb 0 1 = true ->
      forall p v dt,
        simulate_motion StandIn.free_flight p v 0 1 dt =
          Ok (stepped StandIn.free_flight p v 0 1 dt))
  /\ exists images,
       generate_sequence StandIn.cos StandIn.sin StandIn.free_flight
                         2 60 0 (8, 8)%float 0 1 1 = Ok (images, positions)
       /\ List.length positions = Z.to_nat 2
       /\ List.length images = Z.to_nat 2
       /\ Forall2 (fun image '(x, y) =>
                     draw_frame (x, (float_of_int IMAGE_HEIGHT - y
                                     - float_of_int SHAPE_SIDE_LENGTH)%float)
                     = Ok image)
                  images positions.
Proof.
  cbv zeta. split; [left; reflexivity |].
  exact (generate_sequence_converts_positions StandIn.cos StandIn.sin
           StandIn.free_flight 2 60 0 (8, 8)%float 0 1 1
           (or_introl eq_refl)).
Defined.

(** The claim as the specification words it, for every input, fails: with
    a negative restitution the first stepper invocation ends the call, and
    no frame and no position is returned. *)
Lemma generate_sequence_aborts_at_negative_restitution :
  generate_sequence StandIn.cos StandIn.sin StandIn.free_flight
                    1 0 0 (8, 8)%float 0 (-1) 1 =
    Raise (Aborted "Elasticity must be positive.").
Proof. vm_compute. reflexivity. Qed.

(** C3, amended.  In a call in which no stepper invocation aborts (the
    restitution is one the engine accepts, or no invocation is made), the
    generator does what the specification's algorithm says: the velocity it
    starts from is [(speed * cos direction, - speed * sin direction)]; the
    position recorded for the frame of index [k] is the raw physics
    position after [(k + 1) * frame_rate] invocations of the stepper, each
    with time step [1/60] and each on the position and velocity the one
    before returned; there are [N] of them; and the frames are those
    positions, converted, then rasterized. *)
Theorem generate_sequence_refines_spec
    (np_cos np_sin : float -> float)
    (step : pymunk.Space -> float -> pymunk.Space)
    (N : Z) (speed direction : float) (p0 : pymunk.Vec2d)
    (gravity restitution : float) (frame_rate : Z) :
  PrimFloat.leb 0 restitution = true \/ N <= 0 \/ frame_rate <= 0 ->
  let stepper := stepped step in
  let v0 := (speed * np_cos direction, - speed * np_sin direction)%float in
  let positions :=
    spec_positions np_cos np_sin stepper N speed direction p0 gravity restitution
                   frame_rate in
  (PrimFloat.leb 0 restitution = true ->
   forall p v dt,
     simulate_motion step p v gravity restitution dt =
       Ok (stepper p v gravity restitution dt))
  /\ exists images,
       generate_sequence np_cos np_sin step N speed direction p0 gravity restitution
                         frame_rate = Ok (images, positions)
       /\ List.length positions = Z.to_nat N
       /\ (forall k, (k < Z.to_nat N)%nat ->
             nth_error positions k =
               Some (fst (Nat.iter (S k * Z.to_nat frame_rate)
                                   (fun s => stepper (fst s) (snd s) gravity restitution
                                                     (1 / 60)%float)
                                   (p0, v0))))
       /\ map Ok images = map (fun p => draw_frame (to_image p)) positions.
Proof.
  intros Hret stepper v0 positions.
  split; [intros He p v dt; now apply simulate_motion_returns |].
  destruct (generate_sequence_value np_cos np_sin step N speed direction p0 gravity
              restitution frame_rate Hret) as [images [Hrun Hdrawn]].
  exists images.
  split; [exact Hrun |]. split; [| split].
  - apply spec_positions_length.
  - intros k Hk. unfold positions, spec_positions, stepper.
    rewrite nth_error_map, frame_states_nth by exact Hk. reflexivity.
  - now apply drawn_frames_map.
Qed.

Lemma generate_sequence_refines_spec_witness :
  let stepper := stepped StandIn.free_flight in
  let v0 := (60 * StandIn.cos 0, - 60 * StandIn.sin 0)%float in
  let positions :=
    spec_positions StandIn.cos StandIn.sin stepper 2 60 0 (8, 8)%float 0 1 1 in
  (PrimFloat.leb 0 1 = true \/ 2 <= 0 \/ 1 <= 0)
  /\ (PrimFloat.leb 0 1 = true ->
      forall p v dt,
        simulate_motion StandIn.free_flight p v 0 1 dt =
          Ok (stepper p v 0%float 1%float dt))
  /\ exists images,
       generate_sequence StandIn.cos StandIn.sin StandIn.free_flight
                         2 60 0 (8, 8)%float 0 1 1 = Ok (images, positions)
       /\ List.length positions = Z.to_nat 2
       /\ (forall k, (k < Z.to_nat 2)%nat ->
             nth_error positions k =
               Some (fst (Nat.iter (S k * Z.to_nat 1)
                                   (fun s => stepper (fst s) (snd s) 0%float 1%float
                                                     (1 / 60)%float)
                                   ((8, 8)%float, v0))))
       /\ map Ok images = map (fun p => draw_frame (to_image p)) positions.
Proof.
  cbv zeta. split; [left; reflexivity |].
  exact (generate_sequence_refines_spec StandIn.cos StandIn.sin
           StandIn.free_flight 2 60 0 (8, 8)%float 0 1 1 (or_introl eq_refl)).
Defined.

(** ** The motion stepper *)

(** The claim as the specification words it, on every call, fails: with a
    negative restitution no scene is built. *)
Lemma simulate_motion_aborts_at_negative_restitution :
  simulate_motion_scene (8, 8)%float (0, 0)%float 0 (-1) =
    Raise (Aborted "Elasticity must be positive.")
  /\ simulate_motion StandIn.free_flight (8, 8)%float (0, 0)%float 0 (-1) (1 / 60) =
       Raise (Aborted "Elasticity must be positive.").
Proof. split; vm_compute; reflexivity. Qed.

(** C4, amended.  Every call of the stepper with a restitution that is
    zero or more hands the solver one and the same kind of scene, built
    from its arguments alone: gravity [(0, - gravity)]; one body, of mass 1
    and of the moment of inertia of a box of side [s + 1], at the input
    position with the input velocity; the body's collision shape, a box of
    side [s + 1]; and four segments on the static body, along the four
    edges of the 16x16 rectangle; the box and the four segments all carry
    the input restitution as their elasticity.  The result of the call is
    that body, read back after the step.  A call with a negative
    restitution, or NaN, is ended by the engine's assertion at the first
    assignment of an elasticity: no shape is added, the solver is not
    called. *)
Theorem simulate_motion_builds_scene
    (step : pymunk.Space -> float -> pymunk.Space)
    (initial_pos velocity : pymunk.Vec2d) (gravity restitution time_step : float) :
  let side := float_of_int (SHAPE_SIDE_LENGTH + 1) in
  let W := float_of_int IMAGE_WIDTH in
  let H := float_of_int IMAGE_HEIGHT in
  let body :=
    {| pymunk.mass := 1;
       pymunk.moment := pymunk.moment_for_box 1 (side, side);
       pymunk.position := initial_pos;
       pymunk.velocity := velocity |} in
  let wall a b :=
    {| pymunk.body := pymunk.static_body;
       pymunk.geometry := pymunk.Seg a b 1;
       pymunk.elasticity := restitution |} in
  let scene :=
    {| pymunk.gravity := (0, - gravity)%float;
       pymunk.bodies := [body];
       pymunk.shapes :=
         [ {| pymunk.body := pymunk.dynamic body;
              pymunk.geometry := pymunk.Box (side, side) 0;
              pymunk.elasticity := restitution |};
           wall (0, 0)%float (0%float, H);
           wall (0%float, H) (W, H);
           wall (W, H) (W, 0%float);
           wall (W, 0%float) (0, 0)%float ] |} in
  side = 1%float /\ W = 16%float /\ H = 16%float
  /\ simulate_motion_scene initial_pos velocity gravity restitution =
       (if PrimFloat.leb 0 restitution
        then Ok (scene, body)
        else Raise (Aborted "Elasticity must be positive."))
  /\ simulate_motion step initial_pos velocity gravity restitution time_step =
       (if PrimFloat.leb 0 restitution
        then Ok (read_back (step scene time_step) body)
        else Raise (Aborted "Elasticity must be positive.")).
Proof.
  cbv zeta. split; [reflexivity |]. split; [reflexivity |]. split; [reflexivity |].
  unfold simulate_motion, simulate_motion_scene, pymunk.set_elasticity.
  destruct (PrimFloat.leb 0 restitution); split; reflexivity.
Qed.

(** The scene of the concrete scenario: the body at (8, 8) is clear of the
    four walls. *)
Example scene_at_centre_is_clear :
  option_map pymunk.clear_of_statics
    (match simulate_motion_scene (8, 8)%float (0, 0)%float 0 1 with
     | Ok (space, _) => Some space
     | Raise _ => None
     end) = Some true.
Proof. vm_compute. reflexivity. Qed.

(** A body that starts against a wall is not clear of it. *)
Example scene_at_wall_is_not_clear :
  option_map pymunk.clear_of_statics
    (match simulate_motion_scene (1.5, 8)%float (0, 0)%float 0 1 with
     | Ok (space, _) => Some space
     | Raise _ => None
     end) = Some false.
Proof. vm_compute. reflexivity. Qed.

(** A stepper call on a body at rest, in zero gravity and clear of the
    walls, over a solver that keeps rest: the body comes back in place. *)
Lemma simulate_motion_at_rest
    (step : pymunk.Space -> float -> pymunk.Space)
    (p v : pymunk.Vec2d) (space : pymunk.Space) (body : pymunk.Body) :
  pymunk.keeps_rest step ->
  simulate_motion_scene p v 0 1 = Ok (space, body) ->
  pymunk.bodies space = [body] ->
  pymunk.position body = p ->
  pymunk.is_zero_vec (pymunk.gravity space) = true ->
  pymunk.is_zero_vec (pymunk.velocity body) = true ->
  pymunk.clear_of_statics space = true ->
  exists b',
    simulate_motion step p v 0 1 (1 / 60)%float =
      Ok ((fst (pymunk.position b'), snd (pymunk.position b')),
          (fst (pymunk.velocity b'), snd (pymunk.velocity b')))
    /\ pymunk.same_place (pymunk.position b') p.
Proof.
  intros Hlaw Hsc Hbodies Hpos Hg Hv Hclear.
  destruct (Hlaw space (1 / 60)%float body Hbodies eq_refl Hg Hv Hclear)
    as [b' [Hb' Hsame]].
  exists b'. split.
  - unfold simulate_motion. rewrite Hsc. cbn [bind]. unfold read_back.
    now rewrite Hb'.
  - now rewrite Hpos in Hsame.
Qed.

(** The pixels of a frame: black at the pixel the position is cast to,
    white elsewhere. *)
Lemma draw_frame_pixel_all (x y : float) :
  exists image,
    draw_frame (x, y) = Ok image
    /\ forall i j,
         0 <= i < 16 -> 0 <= j < 16 ->
         PIL.getpixel image (i, j) =
           Some (if (i =? PIL.c_int x) && (j =? PIL.c_int y)
                 then PIL.Black else PIL.White).
Proof.
  eexists. split; [apply draw_frame_Ok |]. intros i j Hi Hj.
  rewrite getpixel_ImagingDrawRectangle. unfold IMAGE_WIDTH, IMAGE_HEIGHT.
  rewrite (getpixel_new "1" 16 16 PIL.White i j Hi Hj). cbn [option_map].
  change (float_of_int SHAPE_SIDE_LENGTH) with 0%float.
  rewrite !c_int_add_zero, Z.min_id, Z.max_id. f_equal.
  destruct (Z.leb_spec (PIL.c_int x) i), (Z.leb_spec i (PIL.c_int x)),
    (Z.leb_spec (PIL.c_int y) j), (Z.leb_spec j (PIL.c_int y)),
    (Z.eqb_spec i (PIL.c_int x)), (Z.eqb_spec j (PIL.c_int y));
    cbn [andb]; try reflexivity; lia.
Qed.

(** C1.  With a cosine and a sine that are exact at 0 and a solver that
    keeps a body at rest where it is, the call
    [generate_sequence(1, 0, 0, (8, 8), 0, 1, frame_rate=1)] returns one
    frame and one position: the position is (8, 8), and the frame is the
    one drawn at image position [(8, 16 - 8 - s)], white but for that
    pixel. *)
Theorem generate_sequence_at_rest
    (np_cos np_sin : float -> float)
    (step : pymunk.Space -> float -> pymunk.Space) :
  np_cos 0%float = 1%float ->
  np_sin 0%float = 0%float ->
  pymunk.keeps_rest step ->
  exists frame,
    generate_sequence np_cos np_sin step 1 0 0 (8, 8)%float 0 1 1 =
      Ok ([frame], [(8, 8)%float])
    /\ draw_frame (8, 16 - 8 - float_of_int SHAPE_SIDE_LENGTH)%float = Ok frame
    /\ forall i j,
         0 <= i < 16 -> 0 <= j < 16 ->
         PIL.getpixel frame (i, j) =
           Some (if (i =? 8) && (j =? 16 - 8 - SHAPE_SIDE_LENGTH)
                 then PIL.Black else PIL.White).
Proof.
  intros Hcos Hsin Hlaw.
  destruct (simulate_motion_scene (8, 8)%float (0, -0)%float 0 1)
    as [[space body] | ex] eqn:Hsc; [| vm_compute in Hsc; discriminate].
  pose proof Hsc as Hlit. vm_compute in Hlit. injection Hlit as Hs Hb.
  assert (Hrest : exists b',
            simulate_motion step (8, 8)%float (0, -0)%float 0 1 (1 / 60)%float =
              Ok ((fst (pymunk.position b'), snd (pymunk.position b')),
                  (fst (pymunk.velocity b'), snd (pymunk.velocity b')))
            /\ pymunk.same_place (pymunk.position b') (8, 8)%float).
  { apply (simulate_motion_at_rest step (8, 8)%float (0, -0)%float space body
             Hlaw Hsc); rewrite <- ?Hs, <- ?Hb; vm_compute; reflexivity. }
  destruct Hrest as [b' [Hstep [Hx Hy]]].
  cbn [fst snd] in Hx, Hy.
  apply (same_float_finite _ _ false 4503599627370496 (-49)) in Hx;
    [| vm_compute; reflexivity].
  apply (same_float_finite _ _ false 4503599627370496 (-49)) in Hy;
    [| vm_compute; reflexivity].
  rewrite Hx, Hy in Hstep.
  destruct (draw_frame_pixel_all 8 (16 - 8 - float_of_int SHAPE_SIDE_LENGTH)%float)
    as [frame [Hframe Hpix]].
  exists frame. split; [| split].
  - unfold generate_sequence. rewrite Hcos, Hsin.
    change (0 * 1)%float with 0%float. change (- 0 * 0)%float with (-0)%float.
    change (Z.to_nat 1) with 1%nat. cbn [frames].
    change (Z.to_nat 1) with 1%nat. cbn [substeps].
    rewrite Hstep. cbn [bind].
    change (adjusted_position (8, 8)%float)
      with (8, 16 - 8 - float_of_int SHAPE_SIDE_LENGTH)%float.
    rewrite Hframe. reflexivity.
  - exact Hframe.
  - intros i j Hi Hj. rewrite (Hpix i j Hi Hj).
    change (PIL.c_int 8) with 8.
    change (PIL.c_int (16 - 8 - float_of_int SHAPE_SIDE_LENGTH)) with 8.
    change (16 - 8 - SHAPE_SIDE_LENGTH) with 8.
    reflexivity.
Qed.

Lemma generate_sequence_at_rest_witness :
  StandIn.cos 0%float = 1%float
  /\ StandIn.sin 0%float = 0%float
  /\ pymunk.keeps_rest StandIn.free_flight
  /\ exists frame,
       generate_sequence StandIn.cos StandIn.sin StandIn.free_flight
                         1 0 0 (8, 8)%float 0 1 1 =
         Ok ([frame], [(8, 8)%float])
       /\ draw_frame (8, 16 - 8 - float_of_int SHAPE_SIDE_LENGTH)%float = Ok frame
       /\ forall i j,
            0 <= i < 16 -> 0 <= j < 16 ->
            PIL.getpixel frame (i, j) =
              Some (if (i =? 8) && (j =? 16 - 8 - SHAPE_SIDE_LENGTH)
                    then PIL.Black else PIL.White).
Proof.
  split; [reflexivity |]. split; [reflexivity |].
  split; [exact free_flight_keeps_rest |].
  apply (generate_sequence_at_rest StandIn.cos StandIn.sin StandIn.free_flight);
    [reflexivity | reflexivity | exact free_flight_keeps_rest].
Defined.

(** ** Determinism *)

Section Determinism.

Import pymunk.

Variables np_cos np_sin : float -> float.
Variable may_step : Space -> float -> Space -> Prop.
Hypothesis may_step_deterministic : deterministic may_step.

Lemma simulate_motion_run_deterministic p v g e dt s1 s2 :
  simulate_motion_run may_step p v g e dt s1 ->
  simulate_motion_run may_step p v g e dt s2 ->
  s1 = s2.
Proof.
  intros H1 H2.
  destruct H1 as [e1 E1 | sp1 sp1' b1 E1 M1]; destruct H2 as [e2 E2 | sp2 sp2' b2 E2 M2];
    try congruence.
  assert (sp1 = sp2 /\ b1 = b2) as [-> ->] by (split; congruence).
  now rewrite (may_step_deterministic _ _ _ _ M1 M2).
Qed.

Lemma substeps_run_deterministic g e n :
  forall s out1 out2,
    substeps_run may_step g e n s out1 ->
    substeps_run may_step g e n s out2 ->
    out1 = out2.
Proof.
  induction n as [| n IH]; intros s out1 out2 H1 H2.
  - inversion H1; inversion H2; congruence.
  - inversion H1 as [| n1 a ex1 Hab1 | n1 a a1 o1 Hstep1 Hrest1]; subst;
      inversion H2 as [| n2 b ex2 Hab2 | n2 b b1 o2 Hstep2 Hrest2]; subst.
    + eapply simulate_motion_run_deterministic; eassumption.
    + pose proof (simulate_motion_run_deterministic _ _ _ _ _ _ _ Hab1 Hstep2).
      discriminate.
    + pose proof (simulate_motion_run_deterministic _ _ _ _ _ _ _ Hstep1 Hab2).
      discriminate.
    + pose proof (simulate_motion_run_deterministic _ _ _ _ _ _ _ Hstep1 Hstep2) as E.
      injection E as ->. eapply IH; eassumption.
Qed.

Lemma frames_run_deterministic fr g e n :
  forall images positions s out1 out2,
    frames_run may_step fr g e n images positions s out1 ->
    frames_run may_step fr g e n images positions s out2 ->
    out1 = out2.
Proof.
  induction n as [| n IH]; intros images positions s out1 out2 H1 H2.
  - inversion H1; inversion H2; congruence.
  - inversion H1 as [| n1 im1 ps1 a ex1 Hsub1
                      | n1 im1 ps1 a a' ex1 Hsub1 Hd1
                      | n1 im1 ps1 a a' image1 o1 Hsub1 Hd1 Hrest1]; subst;
      inversion H2 as [| n2 im2 ps2 b ex2 Hsub2
                        | n2 im2 ps2 b b' ex2 Hsub2 Hd2
                        | n2 im2 ps2 b b' image2 o2 Hsub2 Hd2 Hrest2]; subst;
      pose proof (substeps_run_deterministic _ _ _ _ _ _ Hsub1 Hsub2) as E;
      try discriminate; try (injection E as ->); try congruence.
    assert (image1 = image2) by congruence. subst image2.
    eapply IH; eassumption.
Qed.

End Determinism.

(** Over a solver that is a function, the value of [generate_sequence] is a
    run: the program always has one. *)
Section FunctionRuns.

Import pymunk.

Variables np_cos np_sin : float -> float.
Variable step : Space -> float -> Space.

Lemma simulate_motion_runs p v g e dt :
  simulate_motion_run (as_relation step) p v g e dt (simulate_motion step p v g e dt).
Proof.
  unfold simulate_motion.
  destruct (simulate_motion_scene p v g e) as [[space body] | ex] eqn:E; cbn [bind].
  - eapply run_simulate_motion; [exact E | reflexivity].
  - now apply run_simulate_motion_abort.
Qed.

Lemma substeps_runs g e n :
  forall p v,
    substeps_run (as_relation step) g e n (p, v) (substeps step n p v g e).
Proof.
  induction n as [| n IH]; intros p v; cbn [substeps].
  - constructor.
  - pose proof (simulate_motion_runs p v g e (1 / 60)%float) as Hrun.
    destruct (simulate_motion step p v g e (1 / 60)%float) as [[p' v'] | ex];
      cbn [bind].
    + eapply run_substeps_more; [exact Hrun | apply IH].
    + apply run_substeps_abort. exact Hrun.
Qed.

Lemma frames_runs fr g e n :
  forall images positions p v,
    frames_run (as_relation step) fr g e n images positions (p, v)
               (frames step n fr g e images positions p v).
Proof.
  induction n as [| n IH]; intros images positions p v; cbn [frames].
  - constructor.
  - pose proof (substeps_runs g e (Z.to_nat fr) p v) as Hsub.
    destruct (substeps step (Z.to_nat fr) p v g e) as [[p' v'] | ex]; cbn [bind].
    + destruct (draw_frame (adjusted_position p')) as [image | ex] eqn:D; cbn [bind].
      * eapply run_frames_more; [exact Hsub | exact D | apply IH].
      * eapply run_frames_raise; [exact Hsub | exact D].
    + apply run_frames_abort. exact Hsub.
Qed.

Lemma generate_sequence_runs N speed direction p0 g e fr :
  generate_sequence_run np_cos np_sin (as_relation step) N speed direction p0 g e fr
    (generate_sequence np_cos np_sin step N speed direction p0 g e fr).
Proof. apply frames_runs. Qed.

End FunctionRuns.

Lemma as_relation_deterministic (step : pymunk.Space -> float -> pymunk.Space) :
  deterministic (as_relation step).
Proof. intros sp dt sp1 sp2 H1 H2. unfold as_relation in *. congruence. Qed.

(** C8.  Over a solver whose step has one outcome, two runs of
    [generate_sequence] on the same inputs return the same result: the same
    frames, pixel for pixel, and the same positions, float for float. *)
Theorem generate_sequence_deterministic
    (np_cos np_sin : float -> float)
    (may_step : pymunk.Space -> float -> pymunk.Space -> Prop)
    (sequence_length : Z) (initial_speed initial_direction : float)
    (initial_position : pymunk.Vec2d)
    (gravity coefficient_of_restitution : float) (frame_rate : Z)
    (out1 out2 : result (list PIL.Image * list pymunk.Vec2d)) :
  deterministic may_step ->
  generate_sequence_run np_cos np_sin may_step sequence_length initial_speed
    initial_direction initial_position gravity coefficient_of_restitution
    frame_rate out1 ->
  generate_sequence_run np_cos np_sin may_step sequence_length initial_speed
    initial_direction initial_position gravity coefficient_of_restitution
    frame_rate out2 ->
  out1 = out2.
Proof.
  intros Hdet H1 H2. unfold generate_sequence_run in *.
  eapply frames_run_deterministic; eassumption.
Qed.

Lemma generate_sequence_deterministic_witness :
  let may_step := as_relation StandIn.free_flight in
  let out1 :=
    generate_sequence StandIn.cos StandIn.sin StandIn.free_flight
                      1 0 0 (8, 8)%float 0 1 1 in
  let out2 :=
    Ok ([PIL.ImagingDrawRectangle (PIL.new "1" (16, 16) PIL.White) 8 8 8 8 PIL.Black],
        [(8, 8)%float]) in
  deterministic may_step
  /\ generate_sequence_run StandIn.cos StandIn.sin may_step
       1 0 0 (8, 8)%float 0 1 1 out1
  /\ generate_sequence_run StandIn.cos StandIn.sin may_step
       1 0 0 (8, 8)%float 0 1 1 out2
  /\ out1 = out2.
Proof.
  cbv zeta.
  assert (Hdet : deterministic (as_relation StandIn.free_flight))
    by apply as_relation_deterministic.
  assert (H1 : generate_sequence_run StandIn.cos StandIn.sin
                 (as_relation StandIn.free_flight) 1 0 0 (8, 8)%float 0 1 1
                 (generate_sequence StandIn.cos StandIn.sin StandIn.free_flight
                                    1 0 0 (8, 8)%float 0 1 1))
    by apply generate_sequence_runs.
  assert (H2 : generate_sequence_run StandIn.cos StandIn.sin
                 (as_relation StandIn.free_flight) 1 0 0 (8, 8)%float 0 1 1
                 (Ok ([PIL.ImagingDrawRectangle (PIL.new "1" (16, 16) PIL.White)
                         8 8 8 8 PIL.Black],
                      [(8, 8)%float]))).
  { replace (Ok _) with (generate_sequence StandIn.cos StandIn.sin StandIn.free_flight
                                           1 0 0 (8, 8)%float 0 1 1)
      by (vm_compute; reflexivity).
    apply generate_sequence_runs. }
  split; [exact Hdet |]. split; [exact H1 |]. split; [exact H2 |].
  exact (generate_sequence_deterministic StandIn.cos StandIn.sin
           (as_relation StandIn.free_flight) 1 0 0 (8, 8)%float 0 1 1 _ _
           Hdet H1 H2).
Defined.

(** ** The random scenario sampler *)


(** What a draw does: nothing but raise on a range of no finite width;
    otherwise it takes the generator's next variate. *)
Lemma np_random_uniform_finite (RandomState : Type)
    (next_double : RandomState -> float * RandomState)
    (low high : float) (rng : RandomState) :
  finite_width (low, high) = true ->
  np_random_uniform RandomState next_double low high rng =
    (Ok (uniform_of (low, high) (fst (next_double rng))), snd (next_double rng)).
Proof.
  unfold finite_width, np_random_uniform, uniform_of. cbn [fst snd]. intros ->.
  now destruct (next_double rng).
Qed.

Lemma np_random_uniform_overflow (RandomState : Type)
    (next_double : RandomState -> float * RandomState)
    (low high : float) (rng : RandomState) :
  finite_width (low, high) = false ->
  np_random_uniform RandomState next_double low high rng =
    (Raise (OverflowError "Range exceeds valid bounds"), rng).
Proof.
  unfold finite_width, np_random_uniform. cbn [fst snd]. now intros ->.
Qed.

Lemma variates_succ (RandomState : Type)
    (next_double : RandomState -> float * RandomState) (n : nat) (rng : RandomState) :
  variates RandomState next_double (S n) rng =
    (fst (next_double rng)
       :: fst (variates RandomState next_double n (snd (next_double rng))),
     snd (variates RandomState next_double n (snd (next_double rng)))).
Proof.
  cbn [variates]. destruct (next_double rng) as [u r]. cbn [fst snd].
  now destruct (variates RandomState next_double n r).
Qed.



(** The values a default call draws when every variate is one half: the
    middle of each range. *)
Example sample_all_the_middles :
  map (fun r => uniform_of r 0.5) (ranges generate_random_sequence_defaults) =
    [5; np_pi; 8; 8; 7.5; 0.75]%float.
Proof. vm_compute. reflexivity. Qed.

(** ** What the stepper does not do *)

(** The stepper validates nothing about the position: over any solver that
    keeps a resting body in place, a body handed in at rest far outside the
    box comes back exactly there. *)
Remark simulate_motion_does_not_confine
    (step : pymunk.Space -> float -> pymunk.Space) :
  pymunk.keeps_rest step ->
  exists velocity,
    simulate_motion step (100, 100)%float (0, 0)%float 0 1 (1 / 60)%float
    = Ok ((100, 100)%float, velocity).
Proof.
  intros Hlaw.
  destruct (simulate_motion_scene (100, 100)%float (0, 0)%float 0 1)
    as [[space body] | ex] eqn:Hsc; [| vm_compute in Hsc; discriminate].
  pose proof Hsc as Hlit. vm_compute in Hlit. injection Hlit as Hs Hb.
  assert (Hrest : exists b',
            simulate_motion step (100, 100)%float (0, 0)%float 0 1 (1 / 60)%float =
              Ok ((fst (pymunk.position b'), snd (pymunk.position b')),
                  (fst (pymunk.velocity b'), snd (pymunk.velocity b')))
            /\ pymunk.same_place (pymunk.position b') (100, 100)%float).
  { apply (simulate_motion_at_rest step (100, 100)%float (0, 0)%float space body
             Hlaw Hsc); rewrite <- ?Hs, <- ?Hb; vm_compute; reflexivity. }
  destruct Hrest as [b' [Hstep [Hx Hy]]].
  cbn [fst snd] in Hx, Hy.
  apply (same_float_finite _ _ false 7036874417766400 (-46)) in Hx;
    [| vm_compute; reflexivity].
  apply (same_float_finite _ _ false 7036874417766400 (-46)) in Hy;
    [| vm_compute; reflexivity].
  rewrite Hx, Hy in Hstep. eexists. exact Hstep.
Qed.

(** * Further properties of the code *)

(** ** The pixel a coordinate falls in *)

Lemma digits2_pos_bounds (m : positive) :
  2 ^ (Z.pos (digits2_pos m) - 1) <= Z.pos m < 2 ^ Z.pos (digits2_pos m).
Proof.
  induction m as [m IH | m IH |]; cbn [digits2_pos].
  - rewrite Pos2Z.inj_succ, Pos2Z.inj_xI.
    replace (Z.succ (Z.pos (digits2_pos m)) - 1)
      with (Z.succ (Z.pos (digits2_pos m) - 1)) by lia.
    rewrite !Z.pow_succ_r by lia. lia.
  - rewrite Pos2Z.inj_succ. change (Z.pos m~0) with (2 * Z.pos m).
    replace (Z.succ (Z.pos (digits2_pos m)) - 1)
      with (Z.succ (Z.pos (digits2_pos m) - 1)) by lia.
    rewrite !Z.pow_succ_r by lia. lia.
  - cbn. lia.
Qed.

(** The mantissa of a binary64 number is below 2^53, and at least 2^52
    unless the number is subnormal. *)
Lemma finite_mantissa (x : float) (s : bool) (m : positive) (e : Z) :
  Prim2SF x = S754_finite s m e ->
  Z.pos m < 9007199254740992 /\ (-1074 < e -> 4503599627370496 <= Z.pos m).
Proof.
  intros E. pose proof (Prim2SF_valid x) as V. rewrite E in V. clear E.
  unfold SpecFloat.valid_binary, bounded, canonical_mantissa, fexp, SpecFloat.emin in V.
  apply andb_true_iff in V as [V _]. apply Z.eqb_eq in V.
  change (3 - emax - prec) with (-1074) in V. change prec with 53 in V.
  pose proof (digits2_pos_bounds m) as [Hlo Hhi].
  change 9007199254740992 with (2 ^ 53). change 4503599627370496 with (2 ^ 52).
  destruct (Z.max_spec (Z.pos (digits2_pos m) + e - 53) (-1074)) as [[Hc Hm] | [Hc Hm]];
    rewrite Hm in V.
  - split; [| lia].
    apply (Z.lt_le_trans _ _ _ Hhi). apply Z.pow_le_mono_r; lia.
  - assert (Hd : Z.pos (digits2_pos m) = 53) by lia.
    rewrite Hd in Hlo, Hhi. split; [exact Hhi | intros _; exact Hlo].
Qed.

Lemma shiftl_nonpos (a e : Z) : e <= 0 -> Z.shiftl a e = a / 2 ^ (- e).
Proof.
  intros He. rewrite <- Z.shiftr_opp_r. apply Z.shiftr_div_pow2. lia.
Qed.

(** A mantissa shifted right by [k] bits or more is below [2^(53 - k)]. *)
Lemma shiftl_mantissa_below (m e k : Z) :
  0 <= m < 9007199254740992 -> 0 <= k <= 53 -> e <= - k ->
  0 <= Z.shiftl m e < 2 ^ (53 - k).
Proof.
  intros Hm Hk He. rewrite shiftl_nonpos by lia.
  assert (Hp : 2 ^ k <= 2 ^ (- e)) by (apply Z.pow_le_mono_r; lia).
  assert (Hk0 : 0 < 2 ^ k) by (apply Z.pow_pos_nonneg; lia).
  assert (Hs : 2 ^ 53 = 2 ^ (53 - k) * 2 ^ k).
  { rewrite <- Z.pow_add_r by lia. f_equal. lia. }
  change (2 ^ 53) with 9007199254740992 in Hs.
  assert (H0 : 0 < 2 ^ (53 - k)) by (apply Z.pow_pos_nonneg; lia).
  split; [apply Z.div_pos; lia |].
  apply Z.div_lt_upper_bound; [lia |]. nia.
Qed.

(** A normal mantissa shifted right by at most [k] bits, or shifted left, is
    at least [2^(52 - k)]. *)
Lemma shiftl_mantissa_above (m e k : Z) :
  4503599627370496 <= m -> 0 <= k <= 52 -> - k <= e ->
  2 ^ (52 - k) <= Z.shiftl m e.
Proof.
  intros Hm Hk He.
  assert (H0 : 0 < 2 ^ (52 - k)) by (apply Z.pow_pos_nonneg; lia).
  assert (Hs : 2 ^ 52 = 2 ^ (52 - k) * 2 ^ k).
  { rewrite <- Z.pow_add_r by lia. f_equal. lia. }
  change (2 ^ 52) with 4503599627370496 in Hs.
  destruct (Z_le_gt_dec e 0) as [Hneg | Hpos].
  - rewrite shiftl_nonpos by lia.
    assert (Hp : 2 ^ (- e) <= 2 ^ k) by (apply Z.pow_le_mono_r; lia).
    assert (He0 : 0 < 2 ^ (- e)) by (apply Z.pow_pos_nonneg; lia).
    apply Z.div_le_lower_bound; [lia |]. nia.
  - rewrite Z.shiftl_mul_pow2 by lia.
    assert (He0 : 0 < 2 ^ e) by (apply Z.pow_pos_nonneg; lia).
    assert (Hk0 : 0 < 2 ^ k) by (apply Z.pow_pos_nonneg; lia).
    nia.
Qed.

Lemma compare_cont_Z (a b : positive) :
  Pos.compare_cont Eq a b = (Z.pos a ?= Z.pos b).
Proof. reflexivity. Qed.

Lemma Prim2SF_minus_one :
  Prim2SF (-1)%float = S754_finite true 4503599627370496 (-52).
Proof. vm_compute. reflexivity. Qed.

Lemma Prim2SF_sixteen :
  Prim2SF 16%float = S754_finite false 4503599627370496 (-48).
Proof. vm_compute. reflexivity. Qed.

(** The cast of a finite float whose magnitude, truncated, is [a]. *)
Lemma c_int_finite (x : float) (s : bool) (m : positive) (e : Z) :
  Prim2SF x = S754_finite s m e ->
  PIL.c_int x =
    let z := if s then - Z.shiftl (Z.pos m) e else Z.shiftl (Z.pos m) e in
    if (PIL.INT_MIN <=? z) && (z <=? PIL.INT_MAX) then z else PIL.INT_MIN.
Proof. intros E. unfold PIL.c_int. now rewrite E. Qed.

(** A coordinate strictly between -1 and 16 is cast to a pixel index of the
    frame. *)
Lemma c_int_in_frame (x : float) :
  PrimFloat.ltb (-1) x = true -> PrimFloat.ltb x 16 = true ->
  0 <= PIL.c_int x <= 15.
Proof.
  rewrite !FloatAxioms.ltb_spec, Prim2SF_minus_one, Prim2SF_sixteen.
  destruct (Prim2SF x) as [s | s | | s m e] eqn:E.
  - intros _ _. unfold PIL.c_int. rewrite E. lia.
  - destruct s; discriminate.
  - discriminate.
  - destruct (finite_mantissa x s m e E) as [Hm _].
    rewrite (c_int_finite x s m e E). clear E.
    unfold SFltb, SFcompare. destruct s; cbv zeta.
    + (* negative: above -1, so truncated to 0 *)
      intros H _.
      assert (Hz : Z.shiftl (Z.pos m) e = 0).
      { rewrite compare_cont_Z in H.
        destruct (Z.compare_spec (-52) e) as [He | He | He]; try discriminate.
        - subst e. destruct (Z.compare_spec 4503599627370496 (Z.pos m)) as [Hc | Hc | Hc];
            try discriminate. clear H Hm.
          rewrite shiftl_nonpos by lia. apply Z.div_small.
          change (2 ^ (- -52)) with 4503599627370496. lia.
        - clear H.
          pose proof (shiftl_mantissa_below (Z.pos m) e 53) as B.
          change (2 ^ (53 - 53)) with 1 in B. lia. }
      rewrite Hz. vm_compute. split; discriminate.
    + (* positive: below 16 *)
      intros _ H.
      assert (Hz : 0 <= Z.shiftl (Z.pos m) e <= 15).
      { rewrite compare_cont_Z in H.
        destruct (Z.compare_spec e (-48)) as [He | He | He]; try discriminate.
        - subst e. destruct (Z.compare_spec (Z.pos m) 4503599627370496) as [Hc | Hc | Hc];
            try discriminate. clear H Hm.
          rewrite shiftl_nonpos by lia.
          change (2 ^ (- -48)) with 281474976710656.
          assert (Z.pos m / 281474976710656 < 16)
            by (apply Z.div_lt_upper_bound; lia).
          pose proof (Z.div_pos (Z.pos m) 281474976710656). lia.
        - clear H.
          pose proof (shiftl_mantissa_below (Z.pos m) e 49) as B.
          change (2 ^ (53 - 49)) with 16 in B. lia. }
      clear H Hm.
      assert (Hr : (PIL.INT_MIN <=? Z.shiftl (Z.pos m) e)
                   && (Z.shiftl (Z.pos m) e <=? PIL.INT_MAX) = true).
      { apply andb_true_iff. split; apply Z.leb_le;
          [change PIL.INT_MIN with (-2147483648) | change PIL.INT_MAX with 2147483647];
          lia. }
      rewrite Hr. exact Hz.
Qed.

(** A coordinate of 16 or more is cast outside the frame. *)
Lemma c_int_right_of_frame (x : float) :
  PrimFloat.leb 16 x = true -> ~ (0 <= PIL.c_int x < 16).
Proof.
  rewrite FloatAxioms.leb_spec, Prim2SF_sixteen.
  destruct (Prim2SF x) as [s | s | | s m e] eqn:E.
  - discriminate.
  - intros _. unfold PIL.c_int. rewrite E. vm_compute. intros [H _]. now apply H.
  - discriminate.
  - destruct (finite_mantissa x s m e E) as [_ Hm].
    rewrite (c_int_finite x s m e E). clear E.
    unfold SFleb, SFcompare. destruct s; [discriminate |]. cbv zeta.
    intros H.
    assert (Hz : 16 <= Z.shiftl (Z.pos m) e).
    { rewrite compare_cont_Z in H.
      pose proof (shiftl_mantissa_above (Z.pos m) e 48) as B.
      change (2 ^ (52 - 48)) with 16 in B.
      destruct (Z.compare_spec (-48) e) as [He | He | He]; try discriminate.
      - subst e.
        destruct (Z.compare_spec 4503599627370496 (Z.pos m)) as [Hc | Hc | Hc];
          try discriminate; clear H Hm; lia.
      - clear H. lia. }
    clear H Hm.
    destruct ((PIL.INT_MIN <=? Z.shiftl (Z.pos m) e)
              && (Z.shiftl (Z.pos m) e <=? PIL.INT_MAX)).
    + lia.
    + change PIL.INT_MIN with (-2147483648). lia.
Qed.

(** A coordinate of -1 or less is cast to a negative index. *)
Lemma c_int_left_of_frame (x : float) :
  PrimFloat.leb x (-1) = true -> ~ (0 <= PIL.c_int x < 16).
Proof.
  rewrite FloatAxioms.leb_spec, Prim2SF_minus_one.
  destruct (Prim2SF x) as [s | s | | s m e] eqn:E.
  - discriminate.
  - intros _. unfold PIL.c_int. rewrite E. vm_compute. intros [H _]. now apply H.
  - discriminate.
  - destruct (finite_mantissa x s m e E) as [_ Hm].
    rewrite (c_int_finite x s m e E). clear E.
    unfold SFleb, SFcompare. destruct s; [| discriminate]. cbv zeta.
    intros H.
    assert (Hz : 1 <= Z.shiftl (Z.pos m) e).
    { rewrite compare_cont_Z in H.
      pose proof (shiftl_mantissa_above (Z.pos m) e 52) as B.
      change (2 ^ (52 - 52)) with 1 in B.
      destruct (Z.compare_spec e (-52)) as [He | He | He]; try discriminate.
      - subst e.
        destruct (Z.compare_spec (Z.pos m) 4503599627370496) as [Hc | Hc | Hc];
          try discriminate; clear H Hm; lia.
      - clear H. lia. }
    clear H Hm.
    destruct ((PIL.INT_MIN <=? - Z.shiftl (Z.pos m) e)
              && (- Z.shiftl (Z.pos m) e <=? PIL.INT_MAX)).
    + lia.
    + change PIL.INT_MIN with (-2147483648). lia.
Qed.

(** ** Which positions the rasterizer shows *)

Lemma mapi_from_id {A : Type} (f : Z -> A -> A) (l : list A) :
  forall i,
    (forall n a, nth_error l n = Some a -> f (i + Z.of_nat n) a = a) ->
    mapi_from f i l = l.
Proof.
  induction l as [| a l IH]; intros i H; cbn [mapi_from]; [reflexivity |].
  f_equal.
  - specialize (H O a eq_refl). now rewrite Z.add_0_r in H.
  - apply IH. intros n b Hn. specialize (H (S n) b Hn).
    now replace (i + 1 + Z.of_nat n) with (i + Z.of_nat (S n)) by lia.
Qed.

(** A one-pixel rectangle outside a fresh image leaves it as it was. *)
Lemma ImagingDrawRectangle_outside (m : string) (w h : Z) (c ink : PIL.pixel)
    (X Y : Z) :
  ~ (0 <= X < w /\ 0 <= Y < h) ->
  PIL.ImagingDrawRectangle (PIL.new m (w, h) c) X Y X Y ink = PIL.new m (w, h) c.
Proof.
  intros Hout. unfold PIL.ImagingDrawRectangle, PIL.new.
  cbn [PIL.mode PIL.size PIL.data fst snd]. f_equal.
  rewrite Z.min_id, Z.max_id.
  apply mapi_from_id. intros n row Hn. rewrite Z.add_0_l.
  assert (Hlt : (n < Z.to_nat h)%nat).
  { rewrite <- (repeat_length (repeat c (Z.to_nat w)) (Z.to_nat h)).
    apply nth_error_Some. congruence. }
  rewrite nth_error_repeat in Hn by exact Hlt. injection Hn as <-.
  destruct ((Y <=? Z.of_nat n) && (Z.of_nat n <=? Y)) eqn:EY; [| reflexivity].
  apply andb_true_iff in EY as [H1 H2]. apply Z.leb_le in H1, H2.
  unfold PIL.hline. apply mapi_from_id. intros k p Hk. rewrite Z.add_0_l.
  assert (Hkw : (k < Z.to_nat w)%nat).
  { rewrite <- (repeat_length c (Z.to_nat w)). apply nth_error_Some. congruence. }
  destruct ((X <=? Z.of_nat k) && (Z.of_nat k <=? X)) eqn:EX; [| reflexivity].
  apply andb_true_iff in EX as [H3 H4]. apply Z.leb_le in H3, H4.
  exfalso. apply Hout. lia.
Qed.

(** The pixels of a frame: black at the pixel the position is cast to,
    white elsewhere. *)
Lemma draw_frame_pixel (x y : float) (i j : Z) :
  0 <= i < 16 -> 0 <= j < 16 ->
  exists image,
    draw_frame (x, y) = Ok image
    /\ PIL.getpixel image (i, j) =
         Some (if (i =? PIL.c_int x) && (j =? PIL.c_int y)
               then PIL.Black else PIL.White).
Proof.
  intros Hi Hj. eexists. split; [apply draw_frame_Ok |].
  rewrite getpixel_ImagingDrawRectangle. unfold IMAGE_WIDTH, IMAGE_HEIGHT.
  rewrite (getpixel_new "1" 16 16 PIL.White i j Hi Hj). cbn [option_map].
  change (float_of_int SHAPE_SIDE_LENGTH) with 0%float.
  rewrite !c_int_add_zero, Z.min_id, Z.max_id. f_equal.
  destruct (Z.leb_spec (PIL.c_int x) i), (Z.leb_spec i (PIL.c_int x)),
    (Z.leb_spec (PIL.c_int y) j), (Z.leb_spec j (PIL.c_int y)),
    (Z.eqb_spec i (PIL.c_int x)), (Z.eqb_spec j (PIL.c_int y));
    cbn [andb]; try reflexivity; lia.
Qed.

(** A black pixel of a frame is the pixel the position is cast to, and it
    lies in the frame. *)
Lemma draw_frame_black_pixel (x y : float) (image : PIL.Image) (i j : Z) :
  draw_frame (x, y) = Ok image ->
  PIL.getpixel image (i, j) = Some PIL.Black ->
  i = PIL.c_int x /\ j = PIL.c_int y /\ 0 <= i < 16 /\ 0 <= j < 16.
Proof.
  intros E Hb.
  assert (Hin : 0 <= i < 16 /\ 0 <= j < 16).
  { destruct (Z_lt_dec i 0); [| destruct (Z_lt_dec i 16);
      [destruct (Z_lt_dec j 0); [| destruct (Z_lt_dec j 16)] |]];
      try lia;
      rewrite draw_frame_Ok in E; injection E as <-;
      rewrite getpixel_ImagingDrawRectangle in Hb;
      unfold IMAGE_WIDTH, IMAGE_HEIGHT in Hb;
      rewrite (getpixel_outside_new "1" 16 16 PIL.White i j) in Hb by lia;
      discriminate. }
  destruct Hin as [Hi Hj].
  destruct (draw_frame_pixel x y i j Hi Hj) as [im [E' P]].
  rewrite E in E'. injection E' as <-. rewrite P in Hb.
  destruct (Z.eqb_spec i (PIL.c_int x)), (Z.eqb_spec j (PIL.c_int y));
    cbn [andb] in Hb; try discriminate. repeat split; lia.
Qed.

(** X6.  A position whose two image coordinates are strictly
    between -1 and 16 is drawn as exactly one black pixel: the one at the
    coordinates truncated toward zero, which are pixel indices of the
    frame. *)
Theorem draw_frame_shows_one_pixel (x y : float) :
  PrimFloat.ltb (-1) x = true -> PrimFloat.ltb x 16 = true ->
  PrimFloat.ltb (-1) y = true -> PrimFloat.ltb y 16 = true ->
  exists image,
    draw_frame (x, y) = Ok image
    /\ 0 <= PIL.c_int x <= 15 /\ 0 <= PIL.c_int y <= 15
    /\ PIL.getpixel image (PIL.c_int x, PIL.c_int y) = Some PIL.Black
    /\ forall i j,
         PIL.getpixel image (i, j) = Some PIL.Black ->
         i = PIL.c_int x /\ j = PIL.c_int y.
Proof.
  intros Hx1 Hx2 Hy1 Hy2.
  pose proof (c_int_in_frame x Hx1 Hx2) as HX.
  pose proof (c_int_in_frame y Hy1 Hy2) as HY.
  eexists. split; [apply draw_frame_Ok |]. split; [exact HX |]. split; [exact HY |].
  split.
  - destruct (draw_frame_pixel x y (PIL.c_int x) (PIL.c_int y)) as [im [E P]]; try lia.
    rewrite draw_frame_Ok in E. injection E as <-.
    now rewrite P, !Z.eqb_refl.
  - intros i j Hb.
    destruct (draw_frame_black_pixel x y _ i j (draw_frame_Ok x y) Hb) as (-> & -> & _).
    now split.
Qed.

(** X7.  A position with an image coordinate of 16 or more, or of -1
    or less, is drawn as nothing: the frame is all white. *)
Theorem draw_frame_blank_outside (x y : float) :
  PrimFloat.leb 16 x || PrimFloat.leb x (-1)
  || PrimFloat.leb 16 y || PrimFloat.leb y (-1) = true ->
  draw_frame (x, y) = Ok (PIL.new "1" (16, 16) PIL.White).
Proof.
  intros H. rewrite draw_frame_Ok.
  change (float_of_int SHAPE_SIDE_LENGTH) with 0%float.
  rewrite !c_int_add_zero. unfold IMAGE_WIDTH, IMAGE_HEIGHT. f_equal.
  apply ImagingDrawRectangle_outside.
  repeat (apply orb_true_iff in H as [H | H]).
  - pose proof (c_int_right_of_frame x H). tauto.
  - pose proof (c_int_left_of_frame x H). tauto.
  - pose proof (c_int_right_of_frame y H). tauto.
  - pose proof (c_int_left_of_frame y H). tauto.
Qed.

(** ** The sequence generator: sizes, edge cases, composition *)

(** X1.  The outcome of every call of [generate_sequence]: it aborts
    when a stepper invocation is made (both [sequence_length] and
    [frame_rate] positive) with a restitution the engine rejects (negative,
    or NaN); in every other case it returns as many frames as positions,
    [sequence_length] of each, none when [sequence_length] is zero or
    negative. *)
Theorem generate_sequence_outcome
    (np_cos np_sin : float -> float)
    (step : pymunk.Space -> float -> pymunk.Space)
    (sequence_length : Z) (initial_speed initial_direction : float)
    (initial_position : pymunk.Vec2d)
    (gravity coefficient_of_restitution : float) (frame_rate : Z) :
  if (0 <? sequence_length) && (0 <? frame_rate)
     && negb (PrimFloat.leb 0 coefficient_of_restitution)
  then generate_sequence np_cos np_sin step sequence_length initial_speed
         initial_direction initial_position gravity coefficient_of_restitution
         frame_rate = Raise (Aborted "Elasticity must be positive.")
  else exists images positions,
         generate_sequence np_cos np_sin step sequence_length initial_speed
           initial_direction initial_position gravity coefficient_of_restitution
           frame_rate = Ok (images, positions)
         /\ Z.of_nat (List.length images) = Z.max 0 sequence_length
         /\ Z.of_nat (List.length positions) = Z.max 0 sequence_length.
Proof.
  destruct (0 <? sequence_length) eqn:HN; destruct (0 <? frame_rate) eqn:Hfr;
    destruct (PrimFloat.leb 0 coefficient_of_restitution) eqn:He;
    cbn [andb negb];
    try (apply generate_sequence_aborts; [exact He | lia | lia]);
    (destruct (generate_sequence_value np_cos np_sin step sequence_length
                 initial_speed initial_direction initial_position gravity
                 coefficient_of_restitution frame_rate) as [images [Hrun Hdrawn]];
     [ first [ left; exact He | right; left; lia | right; right; lia ]
     | eexists _, _; split; [exact Hrun |];
       rewrite (Forall2_length Hdrawn), spec_positions_length; lia ]).
Qed.

(** X2.  With a [frame_rate] of zero or less the stepper is never
    invoked: every recorded position is the initial position and every
    frame is the frame drawn there, whatever the solver, the speed and the
    gravity. *)
Theorem generate_sequence_without_substeps
    (np_cos np_sin : float -> float)
    (step : pymunk.Space -> float -> pymunk.Space)
    (sequence_length : Z) (initial_speed initial_direction : float)
    (initial_position : pymunk.Vec2d)
    (gravity coefficient_of_restitution : float) (frame_rate : Z) :
  frame_rate <= 0 ->
  exists frame,
    draw_frame (adjusted_position initial_position) = Ok frame
    /\ generate_sequence np_cos np_sin step sequence_length initial_speed
         initial_direction initial_position gravity coefficient_of_restitution
         frame_rate =
       Ok (repeat frame (Z.to_nat sequence_length),
           repeat initial_position (Z.to_nat sequence_length)).
Proof.
  intros Hfr.
  destruct (generate_sequence_value np_cos np_sin step sequence_length initial_speed
              initial_direction initial_position gravity coefficient_of_restitution
              frame_rate (or_intror (or_intror Hfr))) as [images [Hrun Hdrawn]].
  unfold spec_positions in Hrun, Hdrawn.
  replace (Z.to_nat frame_rate) with 0%nat in Hrun, Hdrawn by lia.
  rewrite frame_states_no_steps in Hrun, Hdrawn.
  rewrite map_repeat in Hrun, Hdrawn. cbn [fst] in Hrun, Hdrawn.
  destruct initial_position as [x y].
  eexists. split; [unfold adjusted_position; apply draw_frame_Ok |].
  rewrite Hrun. f_equal. f_equal.
  eapply drawn_frames_unique; [exact Hdrawn |].
  clear. induction (Z.to_nat sequence_length) as [| n IH]; cbn [repeat]; constructor.
  - unfold to_image. apply draw_frame_Ok.
  - exact IH.
Qed.

Lemma generate_sequence_without_substeps_witness :
  -5 <= 0
  /\ exists frame,
       draw_frame (adjusted_position (3, 4)%float) = Ok frame
       /\ generate_sequence StandIn.cos StandIn.sin StandIn.free_flight
            3 2 1 (3, 4)%float 9 1 (-5) =
          Ok (repeat frame (Z.to_nat 3), repeat (3, 4)%float (Z.to_nat 3)).
Proof.
  split; [lia |].
  apply (generate_sequence_without_substeps StandIn.cos StandIn.sin
           StandIn.free_flight 3 2 1 (3, 4)%float 9 1 (-5)).
  lia.
Defined.

(** X3.  In calls in which no stepper invocation aborts (restitution
    zero or more, or a [frame_rate] of zero or less), asking for more
    frames only adds frames: the frames and positions of a call for [n]
    frames are the first [n] frames and positions of a call for [n + m]
    frames with the same other arguments. *)
Theorem generate_sequence_prefix
    (np_cos np_sin : float -> float)
    (step : pymunk.Space -> float -> pymunk.Space)
    (n m : nat) (initial_speed initial_direction : float)
    (initial_position : pymunk.Vec2d)
    (gravity coefficient_of_restitution : float) (frame_rate : Z) :
  PrimFloat.leb 0 coefficient_of_restitution = true \/ frame_rate <= 0 ->
  exists images positions more_images more_positions,
    generate_sequence np_cos np_sin step (Z.of_nat n) initial_speed
      initial_direction initial_position gravity coefficient_of_restitution
      frame_rate = Ok (images, positions)
    /\ generate_sequence np_cos np_sin step (Z.of_nat (n + m)) initial_speed
         initial_direction initial_position gravity coefficient_of_restitution
         frame_rate = Ok (images ++ more_images, positions ++ more_positions)
    /\ List.length more_images = m
    /\ List.length more_positions = m.
Proof.
  intros H.
  assert (H' : forall N, PrimFloat.leb 0 coefficient_of_restitution = true
                         \/ N <= 0 \/ frame_rate <= 0)
    by (intros N; destruct H; [now left | now right; right]).
  destruct (generate_sequence_value np_cos np_sin step (Z.of_nat n) initial_speed
              initial_direction initial_position gravity coefficient_of_restitution
              frame_rate (H' _)) as [images [Hrun Hdrawn]].
  destruct (generate_sequence_value np_cos np_sin step (Z.of_nat (n + m)) initial_speed
              initial_direction initial_position gravity coefficient_of_restitution
              frame_rate (H' _)) as [images' [Hrun' Hdrawn']].
  unfold spec_positions in *. rewrite Nat2Z.id in *.
  rewrite frame_states_app, map_app in Hrun', Hdrawn'.
  apply Forall2_app_inv_r in Hdrawn' as (l1 & l2 & H1 & H2 & ->).
  assert (l1 = images) by (eapply drawn_frames_unique; eassumption). subst l1.
  eexists _, _, l2, _. split; [exact Hrun |]. split; [exact Hrun' |].
  split.
  - rewrite (Forall2_length H2). now rewrite length_map, frame_states_length.
  - now rewrite length_map, frame_states_length.
Qed.

Lemma generate_sequence_prefix_witness :
  (PrimFloat.leb 0 1 = true \/ 1 <= 0)
  /\ exists images positions more_images more_positions,
       generate_sequence StandIn.cos StandIn.sin StandIn.free_flight
         (Z.of_nat 1) 60 0 (8, 8)%float 0 1 1 = Ok (images, positions)
       /\ generate_sequence StandIn.cos StandIn.sin StandIn.free_flight
            (Z.of_nat (1 + 2)) 60 0 (8, 8)%float 0 1 1 =
          Ok (images ++ more_images, positions ++ more_positions)
       /\ List.length more_images = 2%nat
       /\ List.length more_positions = 2%nat.
Proof.
  split; [left; vm_compute; reflexivity |].
  apply (generate_sequence_prefix StandIn.cos StandIn.sin StandIn.free_flight
           1 2 60 0 (8, 8)%float 0 1 1).
  left. vm_compute. reflexivity.
Defined.

(** X4.  With a restitution of zero or more, frames are sampled from
    one and the same trajectory: the frame of index [j] of a sequence with
    [(k + 1) * f] substeps a frame is the frame of index [j * (k + 1) + k]
    of the sequence with [f] substeps a frame and [k + 1] times as many
    frames; so are the positions. *)
Theorem generate_sequence_subsampling
    (np_cos np_sin : float -> float)
    (step : pymunk.Space -> float -> pymunk.Space)
    (n k f j : nat) (initial_speed initial_direction : float)
    (initial_position : pymunk.Vec2d)
    (gravity coefficient_of_restitution : float) :
  PrimFloat.leb 0 coefficient_of_restitution = true ->
  exists coarse_images coarse_positions fine_images fine_positions,
    generate_sequence np_cos np_sin step (Z.of_nat n) initial_speed
      initial_direction initial_position gravity coefficient_of_restitution
      (Z.of_nat (S k * f)) = Ok (coarse_images, coarse_positions)
    /\ generate_sequence np_cos np_sin step (Z.of_nat (n * S k)) initial_speed
         initial_direction initial_position gravity coefficient_of_restitution
         (Z.of_nat f) = Ok (fine_images, fine_positions)
    /\ nth_error coarse_positions j = nth_error fine_positions (j * S k + k)
    /\ nth_error coarse_images j = nth_error fine_images (j * S k + k).
Proof.
  intros He.
  destruct (generate_sequence_value np_cos np_sin step (Z.of_nat n) initial_speed
              initial_direction initial_position gravity coefficient_of_restitution
              (Z.of_nat (S k * f)) (or_introl He)) as [images [Hrun Hdrawn]].
  destruct (generate_sequence_value np_cos np_sin step (Z.of_nat (n * S k))
              initial_speed initial_direction initial_position gravity
              coefficient_of_restitution (Z.of_nat f) (or_introl He))
    as [images' [Hrun' Hdrawn']].
  eexists _, _, _, _. split; [exact Hrun |]. split; [exact Hrun' |].
  assert (Hpos :
    nth_error (spec_positions np_cos np_sin (stepped step) (Z.of_nat n)
                 initial_speed initial_direction initial_position gravity
                 coefficient_of_restitution (Z.of_nat (S k * f))) j =
    nth_error (spec_positions np_cos np_sin (stepped step) (Z.of_nat (n * S k))
                 initial_speed initial_direction initial_position gravity
                 coefficient_of_restitution (Z.of_nat f)) (j * S k + k)).
  { unfold spec_positions. rewrite !Nat2Z.id, !nth_error_map.
    destruct (Nat.lt_ge_cases j n) as [Hj | Hj].
    - rewrite !frame_states_nth by nia. cbn [option_map]. do 3 f_equal. nia.
    - replace (nth_error (frame_states _ n _ _ _ _) j)
        with (@None (pymunk.Vec2d * pymunk.Vec2d)).
      2: { symmetry. apply nth_error_None. rewrite frame_states_length. lia. }
      replace (nth_error (frame_states _ (n * S k) _ _ _ _) (j * S k + k))
        with (@None (pymunk.Vec2d * pymunk.Vec2d)).
      2: { symmetry. apply nth_error_None. rewrite frame_states_length. nia. }
      reflexivity. }
  split; [exact Hpos |].
  apply drawn_frames_map in Hdrawn, Hdrawn'.
  assert (H1 : option_map Ok (nth_error images j) =
               option_map Ok (nth_error images' (j * S k + k))).
  { rewrite <- !nth_error_map, Hdrawn, Hdrawn', !nth_error_map. now rewrite Hpos. }
  destruct (nth_error images j), (nth_error images' (j * S k + k));
    cbn [option_map] in H1; congruence.
Qed.

Lemma generate_sequence_subsampling_witness :
  PrimFloat.leb 0 1 = true
  /\ exists coarse_images coarse_positions fine_images fine_positions,
       generate_sequence StandIn.cos StandIn.sin StandIn.free_flight
         (Z.of_nat 2) 60 0 (8, 8)%float 0 1 (Z.of_nat (2 * 1)) =
         Ok (coarse_images, coarse_positions)
       /\ generate_sequence StandIn.cos StandIn.sin StandIn.free_flight
            (Z.of_nat (2 * 2)) 60 0 (8, 8)%float 0 1 (Z.of_nat 1) =
          Ok (fine_images, fine_positions)
       /\ nth_error coarse_positions 1 = nth_error fine_positions (1 * 2 + 1)
       /\ nth_error coarse_images 1 = nth_error fine_images (1 * 2 + 1).
Proof.
  split; [vm_compute; reflexivity |].
  apply (generate_sequence_subsampling StandIn.cos StandIn.sin StandIn.free_flight
           2 1 1 1 60 0 (8, 8)%float 0 1).
  vm_compute. reflexivity.
Defined.

(** X5.  Every frame a returning call of [generate_sequence] returns
    is a 16x16 image of mode "1" with at most one black pixel; when there
    is one, it is at column [x] and row [16 - y - s], truncated toward
    zero, of the position [(x, y)] recorded with the frame. *)
Theorem generate_sequence_frames_one_pixel
    (np_cos np_sin : float -> float)
    (step : pymunk.Space -> float -> pymunk.Space)
    (sequence_length : Z) (initial_speed initial_direction : float)
    (initial_position : pymunk.Vec2d)
    (gravity coefficient_of_restitution : float) (frame_rate : Z)
    (images : list PIL.Image) (positions : list pymunk.Vec2d) :
  generate_sequence np_cos np_sin step sequence_length initial_speed
    initial_direction initial_position gravity coefficient_of_restitution
    frame_rate = Ok (images, positions) ->
  Forall2
    (fun image p =>
       PIL.mode image = "1"%string
       /\ PIL.size image = (16, 16)
       /\ forall i j,
            PIL.getpixel image (i, j) = Some PIL.Black ->
            i = PIL.c_int (fst p)
            /\ j = PIL.c_int (16 - snd p - float_of_int SHAPE_SIDE_LENGTH)%float
            /\ 0 <= i < 16 /\ 0 <= j < 16)
    images positions.
Proof.
  intros Hrun. unfold generate_sequence in Hrun.
  apply frames_returned in Hrun as (new_i & new_p & -> & -> & Hdrawn).
  cbn [app].
  eapply Forall2_impl; [| exact Hdrawn].
  intros image [x y] Hd. unfold to_image in Hd. cbn [fst snd] in *.
  pose proof Hd as Hd'. rewrite draw_frame_Ok in Hd'. injection Hd' as <-.
  split; [reflexivity |]. split; [reflexivity |].
  intros i j Hb. exact (draw_frame_black_pixel _ _ _ i j Hd Hb).
Qed.

Lemma generate_sequence_frames_one_pixel_witness :
  exists images positions,
    generate_sequence StandIn.cos StandIn.sin StandIn.free_flight
      2 60 0 (8, 8)%float 0 1 1 = Ok (images, positions)
    /\ List.length images = 2%nat
    /\ Forall2
         (fun image p =>
            PIL.mode image = "1"%string
            /\ PIL.size image = (16, 16)
            /\ forall i j,
                 PIL.getpixel image (i, j) = Some PIL.Black ->
                 i = PIL.c_int (fst p)
                 /\ j = PIL.c_int (16 - snd p - float_of_int SHAPE_SIDE_LENGTH)%float
                 /\ 0 <= i < 16 /\ 0 <= j < 16)
         images positions.
Proof.
  eexists _, _. split; [vm_compute; reflexivity |]. split; [reflexivity |].
  apply (generate_sequence_frames_one_pixel StandIn.cos StandIn.sin
           StandIn.free_flight 2 60 0 (8, 8)%float 0 1 1).
  vm_compute. reflexivity.
Defined.

(** ** The sampler, on every input *)

(** X8.  The outcome of every call of [generate_random_sequence]: the
    draws are made in the order speed, direction, x, y, gravity,
    restitution, each from the generator's next unit variate, until a range
    of no finite width (an infinite or NaN bound, or a width that
    overflows) stops them; the generator is left in the state after as many
    variates as ranges come before that one, six when there is none.  When
    all six values have been drawn, the result is that of
    [generate_sequence] on them; otherwise the call raises [OverflowError]
    and no sequence is generated. *)
Theorem generate_random_sequence_outcome
    (np_cos np_sin : float -> float)
    (step : pymunk.Space -> float -> pymunk.Space)
    (RandomState : Type)
    (next_double : RandomState -> float * RandomState)
    (a : sampler_args) (rng : RandomState) :
  generate_random_sequence np_cos np_sin step RandomState next_double a rng =
    (match
       map (fun ru => uniform_of (fst ru) (snd ru))
           (combine (ranges a)
              (fst (variates RandomState next_double
                      (List.length (finite_prefix (ranges a))) rng)))
     with
     | [speed; direction; x; y; gravity; restitution] =>
         generate_sequence np_cos np_sin step (sequence_length a) speed direction
           (x, y) gravity restitution (frame_rate a)
     | _ => Raise (OverflowError "Range exceeds valid bounds")
     end,
     snd (variates RandomState next_double
            (List.length (finite_prefix (ranges a))) rng)).
Proof.
  unfold generate_random_sequence, bind_state, ranges. cbn [finite_prefix].
  destruct (finite_width (speed_min a, speed_max a)) eqn:H1;
    [rewrite (np_random_uniform_finite _ _ _ _ _ H1)
    | rewrite (np_random_uniform_overflow _ _ _ _ _ H1); reflexivity].
  destruct (finite_width (direction_min a, direction_max a)) eqn:H2;
    [rewrite (np_random_uniform_finite _ _ _ _ _ H2)
    | rewrite (np_random_uniform_overflow _ _ _ _ _ H2);
      cbn [List.length]; rewrite !variates_succ; reflexivity].
  destruct (finite_width (position_x_min a, position_x_max a)) eqn:H3;
    [rewrite (np_random_uniform_finite _ _ _ _ _ H3)
    | rewrite (np_random_uniform_overflow _ _ _ _ _ H3);
      cbn [List.length]; rewrite !variates_succ; reflexivity].
  destruct (finite_width (position_y_min a, position_y_max a)) eqn:H4;
    [rewrite (np_random_uniform_finite _ _ _ _ _ H4)
    | rewrite (np_random_uniform_overflow _ _ _ _ _ H4);
      cbn [List.length]; rewrite !variates_succ; reflexivity].
  destruct (finite_width (gravity_min a, gravity_max a)) eqn:H5;
    [rewrite (np_random_uniform_finite _ _ _ _ _ H5)
    | rewrite (np_random_uniform_overflow _ _ _ _ _ H5);
      cbn [List.length]; rewrite !variates_succ; reflexivity].
  destruct (finite_width (restitution_min a, restitution_max a)) eqn:H6;
    [rewrite (np_random_uniform_finite _ _ _ _ _ H6)
    | rewrite (np_random_uniform_overflow _ _ _ _ _ H6)];
    cbn [List.length]; rewrite !variates_succ; reflexivity.
Qed.

(** A gravity range that reaches infinity: four variates are taken, then
    the fifth draw raises. *)
Example generate_random_sequence_infinite_gravity :
  generate_random_sequence StandIn.cos StandIn.sin StandIn.free_flight
    nat StandIn.halves
    {| sequence_length := 10; frame_rate := 30;
       speed_min := 0; speed_max := 10;
       direction_min := 0; direction_max := 2 * np_pi;
       position_x_min := 0; position_x_max := 16;
       position_y_min := 0; position_y_max := 16;
       gravity_min := 5; gravity_max := infinity;
       restitution_min := 0.5; restitution_max := 1 |} 0%nat =
    (Raise (OverflowError "Range exceeds valid bounds"), 4%nat).
Proof. vm_compute. reflexivity. Qed.

Lemma draw_frame_shows_one_pixel_witness :
  PrimFloat.ltb (-1) (-0.5) = true /\ PrimFloat.ltb (-0.5) 16 = true
  /\ PrimFloat.ltb (-1) 15.75 = true /\ PrimFloat.ltb 15.75 16 = true
  /\ exists image,
       draw_frame (-0.5, 15.75)%float = Ok image
       /\ 0 <= PIL.c_int (-0.5) <= 15 /\ 0 <= PIL.c_int 15.75 <= 15
       /\ PIL.getpixel image (PIL.c_int (-0.5), PIL.c_int 15.75) = Some PIL.Black
       /\ forall i j,
            PIL.getpixel image (i, j) = Some PIL.Black ->
            i = PIL.c_int (-0.5) /\ j = PIL.c_int 15.75.
Proof.
  split; [reflexivity |]. split; [reflexivity |].
  split; [reflexivity |]. split; [reflexivity |].
  apply (draw_frame_shows_one_pixel (-0.5) 15.75); reflexivity.
Defined.

Lemma draw_frame_blank_outside_witness :
  PrimFloat.leb 16 8 || PrimFloat.leb 8 (-1)
  || PrimFloat.leb 16 16 || PrimFloat.leb 16 (-1) = true
  /\ draw_frame (8, 16)%float = Ok (PIL.new "1" (16, 16) PIL.White).
Proof.
  split; [reflexivity |].
  apply (draw_frame_blank_outside 8 16). reflexivity.
Defined.
